(** * SimpleTextReader: pagination strip and page / line navigation

    A shallow embedding of the [reader] object of
    [client/app/modules/features/reader] (methods [_getPageList],
    [showCurrentPageContent], [generatePagination], [gotoPage],
    [gotoPageInputField] and [gotoLine]) together with the properties the
    specification states about them.

    Conventions of the embedding.
    - Page numbers, line numbers and page breaks are JavaScript numbers that
      hold integers; they are modelled by [Z].  A value that may also be
      [NaN] (an argument of [gotoPage], the result of [parseInt], a line
      number handed to [gotoLine]) has type [jsnum]: every call site in
      the module passes [parseInt(..)], [CURRENT_PAGE + 1],
      [CURRENT_PAGE - 1] or a clamped array index.  What the public
      [gotoPage] and [gotoLine] do with a fractional or infinite argument is
      modelled apart, in [Module Number].
    - JavaScript arrays are lists; [Array.from({length: n}, f)] builds the
      list of [f] at [0 .. n-1] and is empty for [n <= 0].
    - The module mutates [CONFIG.VARS] and talks to the DOM, the window, the
      table of contents and the history store.  The mutable variables are the
      fields of [World]; every call to a collaborator is appended to the
      [effects] log, and the reader's calls of [setHistory] are kept in
      [history].
    - A [throw] leaves the mutations made so far in place, so a method is a
      function [World -> World * completion A]. *)

From Stdlib Require Import ZArith String Bool Lia.
From stdpp Require Import base relations list list_numbers.
From Stdlib Require Import Ascii DecimalString DecimalPos.
From stdpp Require Import sorting.
From Stdlib Require Import QArith Qminmax Qround.

Open Scope Z_scope.

(** ** JavaScript values used by the module *)

Module JS.

(** A number that is an integer, or [NaN]. *)
Inductive jsnum : Type :=
| NaN
| Num (z : Z).

(** [isNaN(x)] *)
Definition isNaN (x : jsnum) : bool :=
  match x with NaN => true | Num _ => false end.

(** [a > b] where [b] may be [NaN]: every comparison with [NaN] is false. *)
Definition gt (a : Z) (b : jsnum) : bool :=
  match b with NaN => false | Num z => z <? a end.

(** An [Error] object, identified by its message. *)
Inductive exn : Type :=
| Error (message : string).

(** How the evaluation of a call ends. *)
Inductive completion (A : Type) : Type :=
| Normal (a : A)
| Throw (e : exn).
Arguments Normal {A} a.
Arguments Throw {A} e.

(** [arr.findIndex(p)]: the 0-based index of the first element satisfying
    [p], and [-1] when there is none. *)
Fixpoint findIndex_from {A} (p : A -> bool) (arr : list A) (i : Z) : Z :=
  match arr with
  | [] => -1
  | x :: rest => if p x then i else findIndex_from p rest (i + 1)
  end.

Definition findIndex {A} (p : A -> bool) (arr : list A) : Z :=
  findIndex_from p arr 0.

(** [arr[i]]: [undefined] (here [None]) outside [0 .. length-1]. *)
Definition index {A} (arr : list A) (i : Z) : option A :=
  if i <? 0 then None else arr !! Z.to_nat i.

(** [arr[i] || d] for an array of numbers: [undefined] and [0] are falsy. *)
Definition index_or (arr : list Z) (i : Z) (d : Z) : Z :=
  match index arr i with
  | Some v => if v =? 0 then d else v
  | None => d
  end.

End JS.
Import JS.

(** ** The page list of the pagination strip *)

(** [const range = (start, end) =>
       Array.from({ length: end - start + 1 }, (_, i) => i + start)] *)
Definition range (start end_ : Z) : list Z :=
  (fun i : nat => Z.of_nat i + start) <$> seq 0 (Z.to_nat (end_ - start + 1)).

(** The three widths computed at the top of [_getPageList]. *)
Definition sideWidth (maxLength : Z) : Z :=
  if maxLength <? 9 then 1 else 2.

Definition leftWidth (maxLength : Z) : Z :=
  (maxLength - sideWidth maxLength * 2 - 3) / 2.

Definition rightWidth (maxLength : Z) : Z :=
  (maxLength - sideWidth maxLength * 2 - 2) / 2.

(** [_getPageList(totalPages, currentPage, maxLength, duringProcessing)].
    A gap is the number [0]. *)
Definition _getPageList (totalPages currentPage maxLength : Z)
    (duringProcessing : bool) : completion (list Z) :=
  if maxLength <? 5 then Throw (Error "maxLength must be at least 5"%string)
  else
    let sideWidth := sideWidth maxLength in
    let leftWidth := leftWidth maxLength in
    let rightWidth := rightWidth maxLength in
    if totalPages <=? maxLength then Normal (range 1 totalPages)
    else if currentPage <=? maxLength - sideWidth - 1 - rightWidth then
      let pageList :=
        range 1 (maxLength - sideWidth - 1)
          ++ [0] ++ range (totalPages - sideWidth + 1) totalPages in
      let pageList_duringProcessing :=
        range 1 (maxLength - sideWidth - 1) ++ [0] in
      Normal (if duringProcessing then pageList_duringProcessing else pageList)
    else if currentPage >=? totalPages - sideWidth - 1 - rightWidth then
      let pageList :=
        range 1 sideWidth
          ++ [0]
          ++ range (totalPages - sideWidth - 1 - rightWidth - leftWidth)
               totalPages in
      let pageList_duringProcessing := range 1 sideWidth ++ [0] in
      Normal (if duringProcessing then pageList_duringProcessing else pageList)
    else
      let pageList :=
        range 1 sideWidth
          ++ [0] ++ range (currentPage - leftWidth) (currentPage + rightWidth)
          ++ [0] ++ range (totalPages - sideWidth + 1) totalPages in
      let pageList_duringProcessing :=
        range 1 sideWidth
          ++ [0] ++ range (currentPage - leftWidth) (currentPage + rightWidth)
          ++ [0] in
      Normal (if duringProcessing then pageList_duringProcessing else pageList).

(** The number of gap markers of a page list. *)
Definition gaps (pages : list Z) : nat :=
  length (filter (fun p => p = 0) pages).

(** ** The reader's variables and its collaborators *)

(** What [CONFIG.DOM_ELEMENT.GET_LINE] finds: the element's tag, and whether
    scrolling to it completes (the module guards these calls with
    [try .. catch]). *)
Record Element : Type := {
  tagName : string;
  scrollIntoView_throws : bool
}.

(** The [scrollTo] argument: ["top"], ["bottom"], or any other value
    ([gotoLine] passes [false]). *)
Inductive scrollTarget : Type :=
| scroll_top
| scroll_bottom
| scroll_other.

(** Calls to the collaborators, in the order in which they are made. *)
Inductive effect : Type :=
| content_rendered (startIndex stop : Z)
| footnotes_rendered
| pagination_rendered (showPages : list Z)
| window_scrollTo_top
| window_scrollTo_top_deferred
| window_scrollTo_bottom
| GetScrollPositions_called (arguments : list bool)
| chapter_title_active (lineNumber : jsnum)
| scrolled_into_view (lineNumber : jsnum)
| window_scrolled_back
| console_log (message : string).

(** [CONFIG.VARS], the log of collaborator calls, and the entries the reader
    itself hands to [setHistory]. *)
Record World : Type := {
  CURRENT_PAGE : Z;
  TOTAL_PAGES : Z;
  PAGE_BREAKS : list Z;
  IS_PROCESSING : bool;
  GOTO_TITLE_CLICKED : bool;
  FILENAME : string;
  FILE_CONTENT_CHUNKS : list string;
  effects : list effect;
  history : list (string * jsnum)
}.

Definition set_CURRENT_PAGE (p : Z) (w : World) : World :=
  {| CURRENT_PAGE := p;
     TOTAL_PAGES := TOTAL_PAGES w;
     PAGE_BREAKS := PAGE_BREAKS w;
     IS_PROCESSING := IS_PROCESSING w;
     GOTO_TITLE_CLICKED := GOTO_TITLE_CLICKED w;
     FILENAME := FILENAME w;
     FILE_CONTENT_CHUNKS := FILE_CONTENT_CHUNKS w;
     effects := effects w;
     history := history w |}.

Definition set_GOTO_TITLE_CLICKED (b : bool) (w : World) : World :=
  {| CURRENT_PAGE := CURRENT_PAGE w;
     TOTAL_PAGES := TOTAL_PAGES w;
     PAGE_BREAKS := PAGE_BREAKS w;
     IS_PROCESSING := IS_PROCESSING w;
     GOTO_TITLE_CLICKED := b;
     FILENAME := FILENAME w;
     FILE_CONTENT_CHUNKS := FILE_CONTENT_CHUNKS w;
     effects := effects w;
     history := history w |}.

Definition add_effect (e : effect) (w : World) : World :=
  {| CURRENT_PAGE := CURRENT_PAGE w;
     TOTAL_PAGES := TOTAL_PAGES w;
     PAGE_BREAKS := PAGE_BREAKS w;
     IS_PROCESSING := IS_PROCESSING w;
     GOTO_TITLE_CLICKED := GOTO_TITLE_CLICKED w;
     FILENAME := FILENAME w;
     FILE_CONTENT_CHUNKS := FILE_CONTENT_CHUNKS w;
     effects := effects w ++ [e];
     history := history w |}.

(** Several collaborator calls in a row. *)
Definition add_effects (es : list effect) (w : World) : World :=
  {| CURRENT_PAGE := CURRENT_PAGE w;
     TOTAL_PAGES := TOTAL_PAGES w;
     PAGE_BREAKS := PAGE_BREAKS w;
     IS_PROCESSING := IS_PROCESSING w;
     GOTO_TITLE_CLICKED := GOTO_TITLE_CLICKED w;
     FILENAME := FILENAME w;
     FILE_CONTENT_CHUNKS := FILE_CONTENT_CHUNKS w;
     effects := effects w ++ es;
     history := history w |}.

Definition add_history (entry : string * jsnum) (w : World) : World :=
  {| CURRENT_PAGE := CURRENT_PAGE w;
     TOTAL_PAGES := TOTAL_PAGES w;
     PAGE_BREAKS := PAGE_BREAKS w;
     IS_PROCESSING := IS_PROCESSING w;
     GOTO_TITLE_CLICKED := GOTO_TITLE_CLICKED w;
     FILENAME := FILENAME w;
     FILE_CONTENT_CHUNKS := FILE_CONTENT_CHUNKS w;
     effects := effects w;
     history := history w ++ [entry] |}.

(** ** Methods as state transformers that may throw *)

Definition M (A : Type) : Type := World -> World * completion A.

#[global] Instance M_ret : MRet M := fun A a w => (w, Normal a).

#[global] Instance M_bind : MBind M := fun A B k m w =>
  match m w with
  | (w', Normal a) => k a w'
  | (w', Throw e) => (w', Throw e)
  end.

(** Read the variables. *)
Definition vars : M World := fun w => (w, Normal w).

(** Change the variables. *)
Definition modify (f : World -> World) : M unit := fun w => (f w, Normal tt).

(** Call a collaborator. *)
Definition call (e : effect) : M unit := modify (add_effect e).

(** [throw e] *)
Definition throw {A} (e : exn) : M A := fun w => (w, Throw e).

(** Hand on the completion of a pure computation. *)
Definition complete {A} (c : completion A) : M A := fun w => (w, c).

(** [try { body } catch (error) { handler }] *)
Definition try_catch {A} (body : M A) (handler : exn -> M A) : M A := fun w =>
  match body w with
  | (w', Normal a) => (w', Normal a)
  | (w', Throw e) => handler e w'
  end.

(** [setHistory(filename, lineNumber)] of [utils/helpers-reader]. *)
Definition setHistory (filename : string) (lineNumber : jsnum) : M unit :=
  modify (add_history (filename, lineNumber)).

(** [setChapterTitleActive(lineNumber)] of [utils/helpers-reader]. *)
Definition setChapterTitleActive (lineNumber : jsnum) : M unit :=
  call (chapter_title_active lineNumber).

(** [line.scrollIntoView({ behavior: "instant", block: "start" })] *)
Definition scrollIntoView (line : Element) (lineNumber : jsnum) : M unit :=
  if scrollIntoView_throws line
  then throw (Error "scrollIntoView"%string)
  else call (scrolled_into_view lineNumber).

(** A method that completes normally with [a] and leaves the variables as
    they were, up to the calls it logs. *)
Definition logs_and_returns {A} (m : M A) (a : A) : Prop :=
  forall w, exists es, m w = (add_effects es w, Normal a).

(** A method that leaves the variables as they were, up to the calls it
    logs, however it completes. *)
Definition logs_only {A} (m : M A) : Prop :=
  forall w, exists es c, m w = (add_effects es w, c).

(** The calls made when scrolling to a line that was found succeeds. *)
Definition scroll_effects (line : Element) (lineNumber : jsnum)
  : list effect :=
  if String.eqb (tagName line) "H2"
  then [scrolled_into_view lineNumber; window_scrolled_back;
        chapter_title_active lineNumber]
  else [scrolled_into_view lineNumber].

(** A state of four pages with the breaks [10, 25, 40], showing page 3;
    its array lacks the leading 0 of the first page. *)
Definition four_pages : World :=
  {| CURRENT_PAGE := 3;
     TOTAL_PAGES := 4;
     PAGE_BREAKS := [10; 25; 40];
     IS_PROCESSING := false;
     GOTO_TITLE_CLICKED := false;
     FILENAME := "book.txt"%string;
     FILE_CONTENT_CHUNKS := [];
     effects := [];
     history := [] |}.

(** The example of the specification as the reader holds it: fifty lines
    in four pages that begin at the lines 0, 10, 25 and 40, showing page
    1. *)
Definition spec_book : World :=
  {| CURRENT_PAGE := 1;
     TOTAL_PAGES := 4;
     PAGE_BREAKS := [0; 10; 25; 40];
     IS_PROCESSING := false;
     GOTO_TITLE_CLICKED := false;
     FILENAME := "book.txt"%string;
     FILE_CONTENT_CHUNKS := replicate 50 "line"%string;
     effects := [];
     history := [] |}.

(** A DOM in which no line is found. *)
Definition no_line : World -> jsnum -> option Element := fun _ _ => None.

(** A DOM in which every line is found, as a paragraph that scrolls into
    view. *)
Definition every_line : World -> jsnum -> option Element :=
  fun _ _ => Some {| tagName := "P"%string; scrollIntoView_throws := false |}.

(** The invariant of [CONFIG.VARS.CURRENT_PAGE]. *)
Definition page_in_range (w : World) : Prop :=
  1 <= CURRENT_PAGE w <= TOTAL_PAGES w.

(** The chunk range of the current page, as [showCurrentPageContent]
    computes it:
    [maxLines = contentChunks.length],
    [startIndex = PAGE_BREAKS[CURRENT_PAGE - 1] || 0],
    [endIndex = PAGE_BREAKS[CURRENT_PAGE] || maxLines]. *)
Definition maxLines (w : World) : Z :=
  Z.of_nat (length (FILE_CONTENT_CHUNKS w)).

Definition startIndex (w : World) : Z :=
  index_or (PAGE_BREAKS w) (CURRENT_PAGE w - 1) 0.

Definition endIndex (w : World) : Z :=
  index_or (PAGE_BREAKS w) (CURRENT_PAGE w) (maxLines w).

(** ** Arguments that are not integers *)

(** [gotoPage] and [gotoLine] are public and take any number.  [number] is
    a number of the language: [NaN], a finite number (a rational), or one
    of the two infinities; [jsnum] is its part made of [NaN] and the
    integers. *)
Module Number.

Inductive number : Type :=
| nan
| finite (q : Q)
| infinity (negative : bool).

Definition of_jsnum (n : jsnum) : number :=
  match n with
  | NaN => nan
  | Num z => finite (inject_Z z)
  end.

(** Whether the number is an integer. *)
Definition is_integer (n : number) : bool :=
  match n with
  | finite q => Qnum q mod Z.pos (Qden q) =? 0
  | nan | infinity _ => false
  end.

(** Whether the number lies in [[1, TOTAL_PAGES]]. *)
Definition in_range (n : number) (w : World) : bool :=
  match n with
  | finite q => Qle_bool 1 q && Qle_bool q (inject_Z (TOTAL_PAGES w))
  | nan | infinity _ => false
  end.

(** The value [gotoPage(page, ..)] assigns to [CURRENT_PAGE],
    [isNaN(page) ? CURRENT_PAGE : Math.max(1, Math.min(page, TOTAL_PAGES))],
    for any number [page]. *)
Definition clampPage (page : number) (w : World) : number :=
  match page with
  | nan => finite (inject_Z (CURRENT_PAGE w))
  | finite page => finite (Qmax 1 (Qmin page (inject_Z (TOTAL_PAGES w))))
  | infinity false => finite (Qmax 1 (inject_Z (TOTAL_PAGES w)))
  | infinity true => finite 1
  end.

(** [a > b] for an integer [a] and any number [b]. *)
Definition gt (a : Z) (b : number) : bool :=
  match b with
  | nan => false
  | finite q => match Qcompare q (inject_Z a) with Lt => true | _ => false end
  | infinity negative => negative
  end.

End Number.

(** The event handed to [gotoPageInputField]: [e.key] and [e.target.value]. *)
Record KeyEvent : Type := {
  key : string;
  target_value : string
}.

Section Reader.

(** [parseInt(CONFIG.RUNTIME_VARS.STYLE.ui_numPaginationItems)]: the style
    configuration is not part of the module. *)
Variable ui_numPaginationItems : Z.

(** The built-in [parseInt], on the text of an input field. *)
Variable parseInt : string -> jsnum.

(** [CONFIG.DOM_ELEMENT.GET_LINE]: the DOM lookup, which depends on what
    has been rendered so far. *)
Variable GET_LINE : World -> jsnum -> option Element.

(** [showCurrentPageContent()]: the loop runs over the chunk indices
    [startIndex <= j < Math.min(endIndex, maxLines)]. *)
Definition showCurrentPageContent : M unit :=
  try_catch
    (w ← vars;
     let maxLines := maxLines w in
     let startIndex := startIndex w in
     let endIndex := endIndex w in
     (if 0 <? maxLines
      then call (content_rendered startIndex (Z.min endIndex maxLines))
      else mret tt);;
     call footnotes_rendered)
    (fun error => call (console_log "Error showing page content:"%string)).

(** [generatePagination()]: the strip is built from [_getPageList]. *)
Definition generatePagination : M unit :=
  w ← vars;
  showPages ← complete (_getPageList (TOTAL_PAGES w) (CURRENT_PAGE w)
                          ui_numPaginationItems (IS_PROCESSING w));
  call (pagination_rendered showPages).

(** [isNaN(page) ? CURRENT_PAGE : Math.max(1, Math.min(page, TOTAL_PAGES))]
    for a [page] that is an integer or [NaN]; [Number.clampPage] is the same
    expression for any number. *)
Definition clampPage (page : jsnum) (w : World) : Z :=
  match page with
  | NaN => CURRENT_PAGE w
  | Num page => Z.max 1 (Z.min page (TOTAL_PAGES w))
  end.

(** [gotoPage(page, scrollTo = "top")] *)
Definition gotoPage (page : jsnum) (scrollTo : scrollTarget) : M unit :=
  modify (fun w => set_CURRENT_PAGE (clampPage page w) w);;
  showCurrentPageContent;;
  generatePagination;;
  match scrollTo with
  | scroll_top => call window_scrollTo_top
  | scroll_bottom => call window_scrollTo_bottom
  | scroll_other => mret tt
  end;;
  call (GetScrollPositions_called [true; true]).

(** [gotoPageInputField(e, scrollTo = "top")] *)
Definition gotoPageInputField (e : KeyEvent) (scrollTo : scrollTarget)
  : M unit :=
  if String.eqb (key e) "Enter" then
    let pageNumberInput := target_value e in
    let page := parseInt pageNumberInput in
    modify (fun w => set_CURRENT_PAGE (clampPage page w) w);;
    showCurrentPageContent;;
    generatePagination;;
    match scrollTo with
    | scroll_top => call window_scrollTo_top_deferred
    | scroll_bottom => call window_scrollTo_bottom
    | scroll_other => mret tt
    end;;
    call (GetScrollPositions_called [])
  else mret tt.

(** The statements [gotoPage] and [gotoPageInputField] have in common once
    the page is set; [scroll] is the scrolling each of them does and
    [arguments] what each of them passes to [GetScrollPositions]. *)
Definition refresh (scroll : M unit) (arguments : list bool) : M unit :=
  showCurrentPageContent;;
  generatePagination;;
  scroll;;
  call (GetScrollPositions_called arguments).

(** The page [gotoLine] decides to show (its variable [needToGoPage]). *)
Definition needToGoPage (lineNumber : jsnum) (w : World) : Z :=
  let needToGoPage :=
    findIndex (fun breakPoint => gt breakPoint lineNumber) (PAGE_BREAKS w) in
  let needToGoPage :=
    if needToGoPage =? -1
    then Z.of_nat (length (PAGE_BREAKS w))
    else needToGoPage in
  Z.max 1 (Z.min needToGoPage (TOTAL_PAGES w)).

(** The [else] branch of [gotoLine]: scroll to the line.  [Some r] is an
    early [return r]. *)
Definition scrollToLine (lineNumber : jsnum) : M (option Z) :=
  w ← vars;
  let line := GET_LINE w lineNumber in
  try_catch
    (match line with
     | Some el =>
         if String.eqb (tagName el) "H2" then
           scrollIntoView el lineNumber;;
           call window_scrolled_back;;
           setChapterTitleActive lineNumber;;
           mret None
         else
           scrollIntoView el lineNumber;;
           mret None
     | None =>
         call (console_log "Error: No element with id 'line..' found."%string);;
         mret (Some (-1))
     end)
    (fun error =>
       call (console_log "Error: Unable to scroll to line."%string);;
       mret (Some (-1))).

(** [gotoLine(lineNumber, isTitle = true)] *)
Definition gotoLine (lineNumber : jsnum) (isTitle : bool) : M Z :=
  w ← vars;
  let needToGoPage := needToGoPage lineNumber w in
  (if negb (needToGoPage =? CURRENT_PAGE w)
   then gotoPage (Num needToGoPage) scroll_other
   else mret tt);;
  returned ←
    (if isTitle then
       setChapterTitleActive lineNumber;;
       modify (set_GOTO_TITLE_CLICKED true);;
       mret None
     else scrollToLine lineNumber);
  match returned with
  | Some r => mret r
  | None =>
      w ← vars;
      setHistory (FILENAME w) lineNumber;;
      mret 0
  end.

(** One navigation request: the variables before and after it. *)
Inductive navigates : World -> World -> Prop :=
| navigates_gotoPage page scrollTo w :
    navigates w (gotoPage page scrollTo w).1
| navigates_gotoPageInputField e scrollTo w :
    navigates w (gotoPageInputField e scrollTo w).1
| navigates_gotoLine lineNumber isTitle w :
    navigates w (gotoLine lineNumber isTitle w).1.

End Reader.

(** A list that extends another by at least one entry. *)
Definition strict_prefix {A} (short long : list A) : Prop :=
  exists rest, rest <> [] /\ long = short ++ rest.

(** Pages in increasing order, all of them below [bound]. *)
Definition increasing_below (bound : Z) (pages : list Z) : Prop :=
  StronglySorted Z.lt (filter (fun p => p <> 0) pages)
  /\ Forall (fun p => p < bound) pages.

(** ** Text: numbers in strings *)

Module Text.

(** The text of an integer, as a template literal or [innerText] shows it. *)
Definition of_number (z : Z) : string :=
  NilZero.string_of_int (Z.to_int z).

(** The code of a character. *)
Definition code (c : ascii) : Z := Z.of_nat (nat_of_ascii c).

(** [\d]: the characters ["0"] to ["9"]. *)
Definition is_digit (c : ascii) : bool :=
  (48 <=? code c) && (code c <=? 57).

(** [s.replace(/[^\d]/g, empty)]: the characters that are not digits are
    removed. *)
Fixpoint keep_digits (s : string) : string :=
  match s with
  | EmptyString => EmptyString
  | String c rest =>
      if is_digit c then String c (keep_digits rest) else keep_digits rest
  end.

(** White space that [parseInt] skips: TAB, LF, VT, FF, CR and the space
    (strings hold ASCII characters). *)
Definition is_white_space (c : ascii) : bool :=
  ((9 <=? code c) && (code c <=? 13)) || (code c =? 32).

Fixpoint trim_start (s : string) : string :=
  match s with
  | EmptyString => EmptyString
  | String c rest => if is_white_space c then trim_start rest else s
  end.

(** The value of a character as a digit of the radix, if it is one. *)
Definition digit_of (radix : Z) (c : ascii) : option Z :=
  let value :=
    if is_digit c then code c - 48
    else if (97 <=? code c) && (code c <=? 122) then code c - 87
    else if (65 <=? code c) && (code c <=? 90) then code c - 55
    else 36 in
  if value <? radix then Some value else None.

(** The number written by the longest prefix of digits of the radix. *)
Fixpoint digits_value (radix acc : Z) (s : string) : Z :=
  match s with
  | EmptyString => acc
  | String c rest =>
      match digit_of radix c with
      | Some value => digits_value radix (acc * radix + value) rest
      | None => acc
      end
  end.

Definition strip_sign (s : string) : Z * string :=
  match s with
  | String c rest =>
      if Ascii.eqb c "-" then (-1, rest)
      else if Ascii.eqb c "+" then (1, rest)
      else (1, s)
  | EmptyString => (1, s)
  end.

Definition strip_hex_prefix (s : string) : option string :=
  match s with
  | String c0 (String c1 rest) =>
      if Ascii.eqb c0 "0" && (Ascii.eqb c1 "x" || Ascii.eqb c1 "X")
      then Some rest
      else None
  | _ => None
  end.

(** The built-in [parseInt(s, radix)]; the radix 0 stands for a radix that
    is left out. *)
Definition parseInt (s : string) (radix : Z) : jsnum :=
  let (sign, s) := strip_sign (trim_start s) in
  if negb (radix =? 0) && ((radix <? 2) || (36 <? radix)) then NaN
  else
    let stripPrefix := (radix =? 0) || (radix =? 16) in
    let R := if radix =? 0 then 10 else radix in
    let (R, s) :=
      match (if stripPrefix then strip_hex_prefix s else None) with
      | Some rest => (16, rest)
      | None => (R, s)
      end in
    match s with
    | String c _ =>
        match digit_of R c with
        | Some _ => Num (sign * digits_value R 0 s)
        | None => NaN
        end
    | EmptyString => NaN
    end.

End Text.

(** ** The controls of the pagination strip *)

(** The children the loop of [generatePagination] appends to the strip:
    the previous-page button, a jump input ([pageJumpInput_i]), a page button
    ([pageJump_i], its page, whether it is the active one) and the
    next-page button. *)
Inductive control : Type :=
| pagePrev (disabled : bool)
| pageJumpInput (i : Z)
| pageJump (i : Z) (page : Z) (active : bool)
| pageNext (disabled : bool).

(** One turn of the loop of [generatePagination], for [showPages[i - 1]]. *)
Definition controls_of (w : World) (i : Z) (entry : Z) : list control :=
  (if entry =? 1 then [pagePrev (CURRENT_PAGE w =? 1)] else [])
  ++ [if entry =? 0
      then pageJumpInput (i - 1)
      else pageJump (i - 1) entry (entry =? CURRENT_PAGE w)]
  ++ (if entry =? TOTAL_PAGES w
      then [pageNext (CURRENT_PAGE w =? TOTAL_PAGES w)]
      else []).

(** The loop [for (let i = 1; i <= showPages.length; i++)]. *)
Fixpoint paginationList_from (w : World) (i : Z) (showPages : list Z)
  : list control :=
  match showPages with
  | [] => []
  | entry :: rest => controls_of w i entry ++ paginationList_from w (i + 1) rest
  end.

Definition paginationList (w : World) (showPages : list Z) : list control :=
  paginationList_from w 1 showPages.

(** A child of the strip: a control of the loop, or the processing
    indicator. *)
Inductive child : Type :=
| button (c : control)
| processing_indicator.

(** The children of the strip [generatePagination] builds.
    [existingProcessing] tells whether the document had a processing
    indicator ([CONFIG.DOM_ELEMENT.PAGINATION_INDICATOR]) when the method
    was entered; the indicator is then appended again behind the controls
    of the loop. *)
Definition paginationChildren (w : World) (showPages : list Z)
    (existingProcessing : bool) : list child :=
  (button <$> paginationList w showPages)
  ++ (if existingProcessing then [processing_indicator] else []).

(** ** The table of contents *)

(** The values of the [id] attributes in the markup [generate(i)] of
    [processTOC] writes for a title at line [lineNum]: the bullet, the
    title and the shortened title.  (The title texts are written into the
    same markup as they are; which elements the document gets from it is
    not modelled.) *)
Definition toc_anchor_ids (lineNum : Z) : list string :=
  let lineNum := Text.of_number lineNum in
  [ ("a" ++ lineNum ++ "_bull")%string;
    ("a" ++ lineNum)%string;
    ("a" ++ lineNum ++ "_alt")%string ].

(** What a click on the table of contents ends in: the handler leaves the
    event alone, or calls [e.preventDefault()] and stops, or also scrolls
    the window to the line ([window.scrollTo(0, top - top_margin)]). *)
Inductive toc_click : Type :=
| click_ignored
| click_prevented
| click_scrolled (lineNum : jsnum).

Section Handlers.

Variable ui_numPaginationItems : Z.
Variable GET_LINE : World -> jsnum -> option Element.

(** The [click] listeners [generatePagination] attaches to the buttons;
    a page button reads its page back from its text. *)
Definition click (c : control) : M unit :=
  match c with
  | pagePrev _ =>
      w ← vars;
      gotoPage ui_numPaginationItems (Num (CURRENT_PAGE w - 1)) scroll_bottom
  | pageJumpInput _ => mret tt
  | pageJump _ page _ =>
      gotoPage ui_numPaginationItems
        (Text.parseInt (Text.of_number page) 0) scroll_top
  | pageNext _ =>
      w ← vars;
      gotoPage ui_numPaginationItems (Num (CURRENT_PAGE w + 1)) scroll_top
  end.

(** The [keypress] listener of a jump input. *)
Definition keypress (e : KeyEvent) : M unit :=
  gotoPageInputField ui_numPaginationItems (fun s => Text.parseInt s 0)
    e scroll_top.

(** [_handleTOCClick(e)], for the element [e.target] with the given tag
    and id.  Reading [offsetTop] of a line that is not found is a
    [TypeError]. *)
Definition _handleTOCClick (target_tagName target_id : string) : M toc_click :=
  if String.eqb target_tagName "A" && String.prefix "a" target_id then
    let lineNum := Text.parseInt (Text.keep_digits target_id) 10 in
    if negb (isNaN lineNum) then
      gotoLine ui_numPaginationItems GET_LINE lineNum true;;
      w ← vars;
      match GET_LINE w lineNum with
      | Some line => mret (click_scrolled lineNum)
      | None =>
          throw (Error "TypeError: Cannot read properties of null"%string)
      end
    else mret click_prevented
  else mret click_ignored.

End Handlers.

(** * Properties of the page list *)

(** ** [range] *)

Lemma range_seqZ start end_ : range start end_ = seqZ start (end_ - start + 1).
Proof. reflexivity. Qed.

Lemma elem_of_range start end_ k : k ∈ range start end_ <-> start <= k <= end_.
Proof. rewrite range_seqZ, elem_of_seqZ. lia. Qed.

Lemma length_range start end_ :
  length (range start end_) = Z.to_nat (end_ - start + 1).
Proof. rewrite range_seqZ. apply length_seqZ. Qed.

Lemma range_nonempty start end_ : start <= end_ -> range start end_ <> [].
Proof.
  intros Hle Hnil. apply (f_equal length) in Hnil.
  rewrite length_range in Hnil. simpl in Hnil. lia.
Qed.

(** The pages [1 .. n], counted in [nat], are [range 1 n]. *)
Lemma range_from_1 n : range 1 n = Z.of_nat <$> seq 1 (Z.to_nat n).
Proof.
  unfold range. replace (n - 1 + 1) with n by lia.
  rewrite <- fmap_S_seq, <- list_fmap_compose.
  apply list_fmap_ext. intros _ i _. simpl. lia.
Qed.

(** ** Counting gaps *)

Lemma gaps_app l1 l2 : gaps (l1 ++ l2) = (gaps l1 + gaps l2)%nat.
Proof. unfold gaps. now rewrite filter_app, length_app. Qed.

Lemma gaps_no_zero l : 0 ∉ l -> gaps l = 0%nat.
Proof.
  unfold gaps. induction l as [|x l IH]; intros Hnot; [reflexivity|].
  rewrite not_elem_of_cons in Hnot. destruct Hnot as [Hx Hl].
  rewrite filter_cons, decide_False by congruence. now apply IH.
Qed.

Lemma gaps_range start end_ : 0 < start -> gaps (range start end_) = 0%nat.
Proof. intros Hpos. apply gaps_no_zero. rewrite elem_of_range. lia. Qed.

Lemma gaps_gap : gaps [0] = 1%nat.
Proof. reflexivity. Qed.

(** ** The widths *)

Lemma widths_spec maxLength :
  5 <= maxLength ->
  (sideWidth maxLength = 1 \/ sideWidth maxLength = 2) /\
  0 <= leftWidth maxLength /\
  0 <= rightWidth maxLength /\
  leftWidth maxLength + rightWidth maxLength
    = maxLength - 2 * sideWidth maxLength - 3.
Proof.
  intros Hmax. unfold leftWidth, rightWidth, sideWidth.
  destruct (Z.ltb_spec maxLength 9); repeat split;
    try (left; reflexivity); try (right; reflexivity);
    Z.div_mod_to_equations; lia.
Qed.

(** Case analysis on the tests of [_getPageList]. *)
Ltac page_cases :=
  unfold _getPageList;
  rewrite ?Z.geb_leb;
  repeat match goal with
    | |- context [?a <? ?b] => destruct (Z.ltb_spec a b)
    | |- context [?a <=? ?b] => destruct (Z.leb_spec a b)
    end.

(** With room for five entries the page list is always produced. *)
Lemma getPageList_normal totalPages currentPage maxLength duringProcessing :
  5 <= maxLength ->
  exists pages,
    _getPageList totalPages currentPage maxLength duringProcessing
    = Normal pages.
Proof. intros Hmax. page_cases; try lia; eauto. Qed.

(** The strip for 100 pages with room for 9 entries, on page 50, and what is
    left of a 7-entry strip near the end while pages are still processed. *)
Example getPageList_100_50_9 :
  _getPageList 100 50 9 false = Normal [1; 2; 0; 49; 50; 51; 0; 99; 100].
Proof. reflexivity. Qed.

Example getPageList_100_98_7_processing :
  _getPageList 100 98 7 true = Normal [1; 0]
  /\ _getPageList 100 98 7 false = Normal [1; 0; 96; 97; 98; 99; 100].
Proof. split; reflexivity. Qed.

(** ** Everything fits *)

(** C2 (full fit): with [maxLength >= 5], [1 <= currentPage <= totalPages]
    and [totalPages <= maxLength], the page list is exactly
    [1, 2, ..., totalPages], it holds no gap marker, and this is so for both
    values of [duringProcessing]. *)
Theorem getPageList_full_fit totalPages currentPage maxLength duringProcessing :
  5 <= maxLength ->
  1 <= currentPage <= totalPages ->
  totalPages <= maxLength ->
  _getPageList totalPages currentPage maxLength duringProcessing
    = Normal (Z.of_nat <$> seq 1 (Z.to_nat totalPages))
  /\ gaps (Z.of_nat <$> seq 1 (Z.to_nat totalPages)) = 0%nat.
Proof.
  intros Hmax Hcur Hfit. rewrite <- range_from_1. split.
  - page_cases; try lia. reflexivity.
  - apply gaps_range. lia.
Qed.

Lemma getPageList_full_fit_witness :
  _getPageList 5 2 5 true = Normal (Z.of_nat <$> seq 1 (Z.to_nat 5))
  /\ gaps (Z.of_nat <$> seq 1 (Z.to_nat 5)) = 0%nat.
Proof. apply (getPageList_full_fit 5 2 5 true); lia. Defined.

(** ** The precondition *)

(** C8 (precondition enforcement): [_getPageList] throws, with the message
    "maxLength must be at least 5", exactly when [maxLength < 5], whatever the
    other arguments are; and it returns a page list exactly when
    [maxLength >= 5].  Nothing is clamped: a call with [maxLength = 4] throws
    and a call with [maxLength = 5] returns. *)
Theorem getPageList_precondition totalPages currentPage maxLength duringProcessing :
  ((exists e,
      _getPageList totalPages currentPage maxLength duringProcessing = Throw e)
   <-> maxLength < 5)
  /\ (_getPageList totalPages currentPage maxLength duringProcessing
        = Throw (Error "maxLength must be at least 5"%string)
      <-> maxLength < 5)
  /\ ((exists pages,
         _getPageList totalPages currentPage maxLength duringProcessing
         = Normal pages)
      <-> 5 <= maxLength)
  /\ _getPageList totalPages currentPage 4 duringProcessing
       = Throw (Error "maxLength must be at least 5"%string)
  /\ (exists pages,
         _getPageList totalPages currentPage 5 duringProcessing = Normal pages).
Proof.
  assert (Hthrow : maxLength < 5 ->
            _getPageList totalPages currentPage maxLength duringProcessing
            = Throw (Error "maxLength must be at least 5"%string)).
  { intros Hlt. unfold _getPageList.
    destruct (Z.ltb_spec maxLength 5); [reflexivity | lia]. }
  repeat split.
  - intros [e He]. destruct (Z.lt_ge_cases maxLength 5) as [|Hge]; [assumption|].
    destruct (getPageList_normal totalPages currentPage maxLength
                duringProcessing Hge) as [pages Hpages].
    congruence.
  - intros Hlt. eexists. now apply Hthrow.
  - intros He. destruct (Z.lt_ge_cases maxLength 5) as [|Hge]; [assumption|].
    destruct (getPageList_normal totalPages currentPage maxLength
                duringProcessing Hge) as [pages Hpages].
    congruence.
  - exact Hthrow.
  - intros [pages Hpages].
    destruct (Z.lt_ge_cases maxLength 5) as [Hlt|]; [|assumption].
    rewrite (Hthrow Hlt) in Hpages. discriminate.
  - apply getPageList_normal.
  - apply getPageList_normal. lia.
Qed.

(** ** The scenario of one hundred pages *)

(** C6, as stated: the page list for 100 pages, current page 1 and room for
    7 entries is not [1, 2, 3, 4, gap, 99, 100]. *)
Lemma getPageList_100_1_7_not_as_stated :
  _getPageList 100 1 7 false <> Normal [1; 2; 3; 4; 0; 99; 100].
Proof. vm_compute. discriminate. Qed.

(** C6, amended: [_getPageList 100 1 7 false] is the leading run
    [1, 2, 3, 4, 5], one gap marker and the trailing cluster [100]: the widths
    are [sideWidth = 1], [leftWidth = 1], [rightWidth = 1], so the leading run
    ends at [maxLength - sideWidth - 1 = 5] and the trailing cluster has
    [sideWidth = 1] page. *)
Theorem getPageList_100_1_7 :
  sideWidth 7 = 1 /\ leftWidth 7 = 1 /\ rightWidth 7 = 1
  /\ _getPageList 100 1 7 false = Normal [1; 2; 3; 4; 5; 0; 100]
  /\ _getPageList 100 1 7 false = Normal (range 1 5 ++ [0] ++ range 100 100).
Proof. repeat split. Qed.

(** ** The middle case while processing *)

(** C3, as stated: for 100 pages, current page 50 and room for 7 entries (a
    middle case: 50 is in neither cluster) the list built while processing is
    [1, gap, 49, 50, 51, gap]; it is not the leading page, one gap and the
    window alone. *)
Lemma getPageList_middle_processing_not_as_stated :
  7 < 100
  /\ ~ 50 <= 7 - sideWidth 7 - 1 - rightWidth 7
  /\ ~ 50 >= 100 - sideWidth 7 - 1 - rightWidth 7
  /\ _getPageList 100 50 7 true = Normal [1; 0; 49; 50; 51; 0]
  /\ _getPageList 100 50 7 true
       <> Normal (range 1 (sideWidth 7)
                    ++ [0] ++ range (50 - leftWidth 7) (50 + rightWidth 7)).
Proof.
  repeat split; try (vm_compute; discriminate).
  - vm_compute. intros H. now apply H.
  - vm_compute. intros H. now apply H.
Qed.

(** C3, amended: in the middle case ([totalPages > maxLength], [currentPage]
    in neither the start nor the end cluster) the list built with
    [duringProcessing = true] is exactly the leading [sideWidth] pages, one
    gap marker, the window [currentPage - leftWidth .. currentPage +
    rightWidth] and one trailing gap marker; the trailing cluster is dropped,
    the gap before it is kept, so the list holds two gap markers and ends
    with one. *)
Theorem getPageList_middle_processing totalPages currentPage maxLength :
  5 <= maxLength ->
  1 <= currentPage <= totalPages ->
  maxLength < totalPages ->
  ~ currentPage <= maxLength - sideWidth maxLength - 1 - rightWidth maxLength ->
  ~ currentPage >= totalPages - sideWidth maxLength - 1 - rightWidth maxLength ->
  let leading := range 1 (sideWidth maxLength) in
  let window :=
    range (currentPage - leftWidth maxLength)
          (currentPage + rightWidth maxLength) in
  _getPageList totalPages currentPage maxLength true
    = Normal (leading ++ [0] ++ window ++ [0])
  /\ gaps leading = 0%nat
  /\ gaps window = 0%nat
  /\ _getPageList totalPages currentPage maxLength false
     = Normal ((leading ++ [0] ++ window ++ [0])
                 ++ range (totalPages - sideWidth maxLength + 1) totalPages).
Proof.
  intros Hmax Hcur Hmany Hstart Hend leading window.
  pose proof (widths_spec maxLength Hmax) as (Hside & Hleft & Hright & Hsum).
  repeat split.
  - page_cases; try lia. reflexivity.
  - apply gaps_range. lia.
  - apply gaps_range. lia.
  - page_cases; try lia. subst leading window.
    now rewrite <- !app_assoc.
Qed.

Lemma getPageList_middle_processing_witness :
  _getPageList 100 50 7 true
    = Normal (range 1 (sideWidth 7)
                ++ [0] ++ range (50 - leftWidth 7) (50 + rightWidth 7) ++ [0])
  /\ gaps (range 1 (sideWidth 7)) = 0%nat
  /\ gaps (range (50 - leftWidth 7) (50 + rightWidth 7)) = 0%nat
  /\ _getPageList 100 50 7 false
     = Normal ((range 1 (sideWidth 7)
                  ++ [0] ++ range (50 - leftWidth 7) (50 + rightWidth 7)
                  ++ [0])
                 ++ range (100 - sideWidth 7 + 1) 100).
Proof.
  apply (getPageList_middle_processing 100 50 7); try lia;
    vm_compute; intros H; now apply H.
Defined.

(** ** The number of gaps *)

(** C4 (gap-count bound): with [maxLength >= 5], [1 <= currentPage <=
    totalPages], [totalPages > maxLength] and [duringProcessing = false], the
    page list holds at most two gap markers, and exactly one when
    [currentPage] is in the start cluster or in the end cluster. *)
Theorem getPageList_gap_count totalPages currentPage maxLength :
  5 <= maxLength ->
  1 <= currentPage <= totalPages ->
  maxLength < totalPages ->
  exists pages,
    _getPageList totalPages currentPage maxLength false = Normal pages
    /\ (gaps pages <= 2)%nat
    /\ (currentPage
          <= maxLength - sideWidth maxLength - 1 - rightWidth maxLength
        \/ currentPage
             >= totalPages - sideWidth maxLength - 1 - rightWidth maxLength ->
        gaps pages = 1%nat).
Proof.
  intros Hmax Hcur Hmany.
  pose proof (widths_spec maxLength Hmax) as (Hside & Hleft & Hright & Hsum).
  page_cases; try lia; eexists; (split; [reflexivity|]);
    rewrite !gaps_app, gaps_gap, !gaps_range by lia; simpl; lia.
Qed.

Lemma getPageList_gap_count_witness :
  exists pages,
    _getPageList 100 98 9 false = Normal pages
    /\ (gaps pages <= 2)%nat
    /\ (98 <= 9 - sideWidth 9 - 1 - rightWidth 9
        \/ 98 >= 100 - sideWidth 9 - 1 - rightWidth 9 ->
        gaps pages = 1%nat).
Proof. apply (getPageList_gap_count 100 98 9); lia. Defined.

(** ** Truncation while processing *)

(** C5, as stated: when everything fits (3 pages, room for 5 entries) the
    list built while processing equals the full list, so it is not a strict
    prefix of it. *)
Lemma getPageList_processing_not_strict :
  5 <= 5 /\ 1 <= 1 <= 3
  /\ _getPageList 3 1 5 true = Normal [1; 2; 3]
  /\ _getPageList 3 1 5 false = Normal [1; 2; 3]
  /\ ~ strict_prefix [1; 2; 3] [1; 2; 3].
Proof.
  repeat split; try lia.
  intros (rest & Hne & Heq).
  apply (f_equal length) in Heq. rewrite length_app in Heq. simpl in Heq.
  destruct rest; [congruence | simpl in Heq; lia].
Qed.

(** C5, amended: for [maxLength >= 5] and [1 <= currentPage <= totalPages]
    the list built with [duringProcessing = true] is a prefix of the list
    built with [duringProcessing = false]; it is a strict prefix when
    [totalPages > maxLength] and the two lists are equal when
    [totalPages <= maxLength]. *)
Theorem getPageList_processing_prefix totalPages currentPage maxLength :
  5 <= maxLength ->
  1 <= currentPage <= totalPages ->
  exists short full,
    _getPageList totalPages currentPage maxLength true = Normal short
    /\ _getPageList totalPages currentPage maxLength false = Normal full
    /\ short `prefix_of` full
    /\ (maxLength < totalPages -> strict_prefix short full)
    /\ (totalPages <= maxLength -> short = full).
Proof.
  intros Hmax Hcur.
  pose proof (widths_spec maxLength Hmax) as (Hside & Hleft & Hright & Hsum).
  assert (Htrail : range (totalPages - sideWidth maxLength + 1) totalPages
                   <> []) by (apply range_nonempty; lia).
  assert (Hrun : range (totalPages - sideWidth maxLength - 1
                          - rightWidth maxLength - leftWidth maxLength)
                   totalPages <> []) by (apply range_nonempty; lia).
  page_cases; try lia; do 2 eexists;
    (split; [reflexivity|]); (split; [reflexivity|]);
    (split; [|split; [intros Hgt | intros Hle]]); try lia;
    try reflexivity.
  - eexists. rewrite <- app_assoc. reflexivity.
  - eexists. split; [exact Htrail|]. now rewrite <- app_assoc.
  - eexists. rewrite <- app_assoc. reflexivity.
  - eexists. split; [exact Hrun|]. now rewrite <- app_assoc.
  - eexists. rewrite <- !app_assoc. reflexivity.
  - eexists. split; [exact Htrail|]. now rewrite <- !app_assoc.
Qed.

Lemma getPageList_processing_prefix_witness :
  exists short full,
    _getPageList 100 50 7 true = Normal short
    /\ _getPageList 100 50 7 false = Normal full
    /\ short `prefix_of` full
    /\ (7 < 100 -> strict_prefix short full)
    /\ (100 <= 7 -> short = full).
Proof. apply (getPageList_processing_prefix 100 50 7); lia. Defined.

(** * Properties of the navigation *)

(** ** Collaborator calls only extend the log *)

Lemma add_effects_nil w : add_effects [] w = w.
Proof. destruct w. unfold add_effects. simpl. now rewrite app_nil_r. Qed.

Lemma add_effect_add_effects e es w :
  add_effect e (add_effects es w) = add_effects (es ++ [e]) w.
Proof. unfold add_effect, add_effects. simpl. now rewrite app_assoc. Qed.

Lemma add_effects_add_effects es1 es2 w :
  add_effects es2 (add_effects es1 w) = add_effects (es1 ++ es2) w.
Proof. unfold add_effects. simpl. now rewrite app_assoc. Qed.

Lemma add_effect_one e w : add_effect e w = add_effects [e] w.
Proof. reflexivity. Qed.

Lemma call_logs e : logs_and_returns (call e) tt.
Proof. intros w. exists [e]. reflexivity. Qed.

Lemma mret_logs {A} (a : A) : logs_and_returns (mret a) a.
Proof. intros w. exists []. now rewrite add_effects_nil. Qed.

Lemma bind_logs {A B} (m : M A) (k : A -> M B) a b :
  logs_and_returns m a -> logs_and_returns (k a) b ->
  logs_and_returns (m ≫= k) b.
Proof.
  intros Hm Hk w. destruct (Hm w) as [es1 H1].
  destruct (Hk (add_effects es1 w)) as [es2 H2].
  exists (es1 ++ es2). unfold mbind, M_bind. rewrite H1, H2.
  now rewrite add_effects_add_effects.
Qed.

Lemma vars_logs {A} (k : World -> M A) a :
  (forall w0, logs_and_returns (k w0) a) ->
  logs_and_returns (vars ≫= k) a.
Proof. intros Hk w. destruct (Hk w w) as [es H]. exists es. exact H. Qed.

Lemma try_catch_logs {A} (body : M A) handler a :
  logs_and_returns body a -> logs_and_returns (try_catch body handler) a.
Proof.
  intros Hbody w. destruct (Hbody w) as [es H]. exists es.
  unfold try_catch. now rewrite H.
Qed.

Lemma returns_logs_only {A} (m : M A) a : logs_and_returns m a -> logs_only m.
Proof. intros Hm w. destruct (Hm w) as [es H]. eauto. Qed.

Lemma complete_logs_only {A} (c : completion A) : logs_only (complete c).
Proof. intros w. exists [], c. now rewrite add_effects_nil. Qed.

Lemma bind_logs_only {A B} (m : M A) (k : A -> M B) :
  logs_only m -> (forall a, logs_only (k a)) -> logs_only (m ≫= k).
Proof.
  intros Hm Hk w. destruct (Hm w) as (es1 & c1 & H1).
  unfold mbind, M_bind. rewrite H1. destruct c1 as [a|e].
  - destruct (Hk a (add_effects es1 w)) as (es2 & c2 & H2).
    exists (es1 ++ es2), c2. now rewrite H2, add_effects_add_effects.
  - eauto.
Qed.

Lemma vars_logs_only {A} (k : World -> M A) :
  (forall w0, logs_only (k w0)) -> logs_only (vars ≫= k).
Proof. intros Hk w. apply (Hk w w). Qed.

Lemma set_CURRENT_PAGE_same w : set_CURRENT_PAGE (CURRENT_PAGE w) w = w.
Proof. now destruct w. Qed.

(** ** Rendering and page switches *)

Section Navigation.

Variable ui_numPaginationItems : Z.
Variable parseInt : string -> jsnum.
Variable GET_LINE : World -> jsnum -> option Element.

Lemma showCurrentPageContent_logs : logs_and_returns showCurrentPageContent tt.
Proof.
  apply try_catch_logs, vars_logs. intros w.
  apply (bind_logs _ _ tt); [|apply call_logs].
  destruct (0 <? _); [apply call_logs | apply mret_logs].
Qed.

(** With room for five entries the strip is always built. *)
Lemma generatePagination_logs :
  5 <= ui_numPaginationItems ->
  logs_and_returns (generatePagination ui_numPaginationItems) tt.
Proof.
  intros Hitems. apply vars_logs. intros w0 w.
  destruct (getPageList_normal (TOTAL_PAGES w0) (CURRENT_PAGE w0)
              ui_numPaginationItems (IS_PROCESSING w0) Hitems)
    as [showPages HshowPages].
  exists [pagination_rendered showPages].
  unfold mbind, M_bind, complete. now rewrite HshowPages.
Qed.

Lemma generatePagination_logs_only :
  logs_only (generatePagination ui_numPaginationItems).
Proof.
  apply vars_logs_only. intros w0.
  apply bind_logs_only; [apply complete_logs_only|].
  intros showPages. eapply returns_logs_only, call_logs.
Qed.

Lemma refresh_logs (scroll : M unit) arguments :
  5 <= ui_numPaginationItems ->
  logs_and_returns scroll tt ->
  logs_and_returns (refresh ui_numPaginationItems scroll arguments) tt.
Proof.
  intros Hitems Hscroll.
  apply (bind_logs _ _ tt); [apply showCurrentPageContent_logs|].
  apply (bind_logs _ _ tt); [now apply generatePagination_logs|].
  apply (bind_logs _ _ tt); [exact Hscroll | apply call_logs].
Qed.

Lemma refresh_logs_only (scroll : M unit) arguments :
  logs_and_returns scroll tt ->
  logs_only (refresh ui_numPaginationItems scroll arguments).
Proof.
  intros Hscroll.
  apply bind_logs_only;
    [eapply returns_logs_only, showCurrentPageContent_logs | intros _].
  apply bind_logs_only; [apply generatePagination_logs_only | intros _].
  apply bind_logs_only; [eapply returns_logs_only, Hscroll | intros _].
  eapply returns_logs_only, call_logs.
Qed.

(** However [refresh] completes, only the log changes; with room for five
    entries it completes normally. *)
Lemma refresh_run (scroll : M unit) arguments w :
  logs_and_returns scroll tt ->
  exists es c,
    refresh ui_numPaginationItems scroll arguments w
    = (add_effects es w, c)
    /\ (5 <= ui_numPaginationItems -> c = Normal tt).
Proof.
  intros Hscroll.
  destruct (refresh_logs_only scroll arguments Hscroll w)
    as (es & c & Hrun).
  exists es, c. split; [exact Hrun|]. intros Hitems.
  destruct (refresh_logs scroll arguments Hitems Hscroll w) as [es' Hrun'].
  congruence.
Qed.

Lemma gotoPage_run page scrollTo w :
  exists es c,
    gotoPage ui_numPaginationItems page scrollTo w
    = (add_effects es (set_CURRENT_PAGE (clampPage page w) w), c)
    /\ (5 <= ui_numPaginationItems -> c = Normal tt).
Proof.
  apply (refresh_run
           (match scrollTo with
            | scroll_top => call window_scrollTo_top
            | scroll_bottom => call window_scrollTo_bottom
            | scroll_other => mret tt
            end) [true; true]).
  destruct scrollTo; first [apply call_logs | apply mret_logs].
Qed.

Lemma gotoPageInputField_run e scrollTo w :
  exists es c,
    gotoPageInputField ui_numPaginationItems parseInt e scrollTo w
    = (if String.eqb (key e) "Enter"
       then add_effects es
              (set_CURRENT_PAGE (clampPage (parseInt (target_value e)) w) w)
       else w, c)
    /\ (5 <= ui_numPaginationItems -> c = Normal tt).
Proof.
  unfold gotoPageInputField. destruct (String.eqb (key e) "Enter").
  - apply (refresh_run
             (match scrollTo with
              | scroll_top => call window_scrollTo_top_deferred
              | scroll_bottom => call window_scrollTo_bottom
              | scroll_other => mret tt
              end) []).
    destruct scrollTo; first [apply call_logs | apply mret_logs].
  - exists [], (Normal tt). split; reflexivity.
Qed.

(** ** The page switch of [gotoLine] *)

Lemma clampPage_needToGoPage lineNumber w :
  clampPage (Num (needToGoPage lineNumber w)) w = needToGoPage lineNumber w.
Proof. unfold clampPage, needToGoPage. lia. Qed.

Lemma gotoLine_switch lineNumber w :
  exists es c,
    (if negb (needToGoPage lineNumber w =? CURRENT_PAGE w)
     then gotoPage ui_numPaginationItems
            (Num (needToGoPage lineNumber w)) scroll_other
     else mret tt) w
    = (add_effects es (set_CURRENT_PAGE (needToGoPage lineNumber w) w), c)
    /\ (5 <= ui_numPaginationItems -> c = Normal tt).
Proof.
  destruct (Z.eqb_spec (needToGoPage lineNumber w) (CURRENT_PAGE w))
    as [Hsame | Hother]; simpl.
  - exists [], (Normal tt).
    rewrite Hsame, set_CURRENT_PAGE_same, add_effects_nil.
    split; reflexivity.
  - destruct (gotoPage_run (Num (needToGoPage lineNumber w)) scroll_other w)
      as (es & c & Hrun & Hnormal).
    exists es, c. now rewrite Hrun, clampPage_needToGoPage.
Qed.

(** [gotoLine], run: [c] is the completion of the page switch. *)
Lemma gotoLine_run lineNumber isTitle w :
  exists es c,
    (5 <= ui_numPaginationItems -> c = Normal tt)
    /\ let w1 :=
         add_effects es (set_CURRENT_PAGE (needToGoPage lineNumber w) w) in
       gotoLine ui_numPaginationItems GET_LINE lineNumber isTitle w
       = match c with
         | Throw e => (w1, Throw e)
         | Normal _ =>
             if isTitle then
               (add_history (FILENAME w, lineNumber)
                  (set_GOTO_TITLE_CLICKED true
                     (add_effect (chapter_title_active lineNumber) w1)),
                Normal 0)
             else
               match GET_LINE w1 lineNumber with
               | Some line =>
                   if scrollIntoView_throws line then
                     (add_effect
                        (console_log
                           "Error: Unable to scroll to line."%string) w1,
                      Normal (-1))
                   else
                     (add_history (FILENAME w, lineNumber)
                        (add_effects (scroll_effects line lineNumber) w1),
                      Normal 0)
               | None =>
                   (add_effect
                      (console_log
                         "Error: No element with id 'line..' found."%string)
                      w1,
                    Normal (-1))
               end
         end.
Proof.
  destruct (gotoLine_switch lineNumber w) as (es & c & Hes & Hnormal).
  exists es, c. split; [exact Hnormal|].
  unfold gotoLine, mbind, M_bind, vars. rewrite Hes.
  destruct c as [[]|e]; [|reflexivity].
  destruct isTitle; [reflexivity|].
  unfold scrollToLine, mbind, M_bind, vars, try_catch, scroll_effects.
  destruct (GET_LINE _ lineNumber) as [line|]; [|reflexivity].
  unfold scrollIntoView.
  destruct (String.eqb (tagName line) "H2"),
    (scrollIntoView_throws line); try reflexivity;
    cbv -[app needToGoPage]; now rewrite <- ?app_assoc.
Qed.

End Navigation.

(** ** [findIndex] and the page of a line *)

Lemma gt_Num breakPoint lineNumber :
  gt breakPoint (Num lineNumber) = true <-> lineNumber < breakPoint.
Proof. simpl. apply Z.ltb_lt. Qed.

Lemma gt_NaN breakPoint : gt breakPoint NaN = false.
Proof. reflexivity. Qed.

Lemma findIndex_from_first {A} (p : A -> bool) (arr : list A) i k x :
  arr !! k = Some x ->
  p x = true ->
  (forall j y, (j < k)%nat -> arr !! j = Some y -> p y = false) ->
  findIndex_from p arr i = i + Z.of_nat k.
Proof.
  revert i k. induction arr as [|a arr IH]; intros i k Hk Hx Hbefore.
  - discriminate.
  - destruct k as [|k]; simpl in *.
    + injection Hk as ->. rewrite Hx. lia.
    + rewrite (Hbefore 0%nat a) by (simpl; auto with lia).
      rewrite (IH (i + 1) k Hk Hx); [lia|].
      intros j y Hj Hy. apply (Hbefore (S j) y); [lia | exact Hy].
Qed.

Lemma findIndex_from_none {A} (p : A -> bool) (arr : list A) i :
  Forall (fun x => p x = false) arr -> findIndex_from p arr i = -1.
Proof.
  intros Hall. revert i. induction Hall as [|a arr Ha _ IH]; intros i.
  - reflexivity.
  - simpl. rewrite Ha. apply IH.
Qed.

Lemma needToGoPage_first lineNumber w k breakPoint :
  PAGE_BREAKS w !! k = Some breakPoint ->
  gt breakPoint lineNumber = true ->
  (forall j earlier, (j < k)%nat -> PAGE_BREAKS w !! j = Some earlier ->
                     gt earlier lineNumber = false) ->
  needToGoPage lineNumber w = Z.max 1 (Z.min (Z.of_nat k) (TOTAL_PAGES w)).
Proof.
  intros Hk Hgt Hbefore. unfold needToGoPage, findIndex.
  rewrite (findIndex_from_first _ _ 0 k breakPoint Hk Hgt Hbefore).
  destruct (Z.eqb_spec (0 + Z.of_nat k) (-1)); [lia|].
  now rewrite Z.add_0_l.
Qed.

Lemma needToGoPage_none lineNumber w :
  Forall (fun breakPoint => gt breakPoint lineNumber = false) (PAGE_BREAKS w) ->
  needToGoPage lineNumber w
  = Z.max 1 (Z.min (Z.of_nat (length (PAGE_BREAKS w))) (TOTAL_PAGES w)).
Proof.
  intros Hall. unfold needToGoPage, findIndex.
  now rewrite (findIndex_from_none _ _ 0 Hall).
Qed.

Lemma needToGoPage_in_range lineNumber w :
  1 <= TOTAL_PAGES w -> 1 <= needToGoPage lineNumber w <= TOTAL_PAGES w.
Proof. unfold needToGoPage. lia. Qed.

Lemma clampPage_in_range page w :
  1 <= TOTAL_PAGES w -> page_in_range w ->
  1 <= clampPage page w <= TOTAL_PAGES w.
Proof. unfold page_in_range. destruct page; simpl; lia. Qed.

(** A strip configured with room for fewer than five entries makes
    [gotoPage] throw, after the page has been set. *)
Example gotoPage_misconfigured :
  gotoPage 4 (Num 1) scroll_top four_pages
  = (add_effects [footnotes_rendered] (set_CURRENT_PAGE 1 four_pages),
     Throw (Error "maxLength must be at least 5"%string)).
Proof. reflexivity. Qed.

(** ** The page of a line *)

(** Whatever [gotoLine] returns, it has made [needToGoPage] the current
    page. *)
Lemma gotoLine_sets_page ui_numPaginationItems GET_LINE lineNumber isTitle w :
  exists w' c,
    gotoLine ui_numPaginationItems GET_LINE lineNumber isTitle w = (w', c)
    /\ CURRENT_PAGE w' = needToGoPage lineNumber w
    /\ TOTAL_PAGES w' = TOTAL_PAGES w
    /\ (5 <= ui_numPaginationItems -> exists r, c = Normal r).
Proof.
  destruct (gotoLine_run ui_numPaginationItems GET_LINE lineNumber isTitle w)
    as (es & c & Hnormal & Hrun).
  simpl in Hrun. rewrite Hrun.
  destruct c as [[]|e].
  - destruct isTitle;
      [|destruct (GET_LINE _ lineNumber) as [line|];
        [destruct (scrollIntoView_throws line)|]];
      do 2 eexists; repeat split; eauto.
  - do 2 eexists. repeat split.
    intros Hitems. specialize (Hnormal Hitems). discriminate.
Qed.

(** C1 (line resolution): the specification's [PageBreaks] holds the first
    line of the pages 2, 3, ... ([TotalPages - 1] entries, page 1 starting at
    0 implicitly); the reader's [PAGE_BREAKS] array is that sequence behind
    the leading 0 that [showCurrentPageContent] reads as the start of page
    1, so [TOTAL_PAGES] is its length.  For every such [PageBreaks] and
    every line number (a number that is not negative, or any value when no
    break is negative), [gotoLine(lineNumber, isTitle)] resolves the target
    page as the 1-based index of the first [PageBreaks] entry strictly
    greater than [lineNumber], or [TotalPages] when there is none, clamped
    to [1, TotalPages], and makes it the current page.  With
    [PageBreaks = [10, 25, 40]] and four pages, [gotoLine(9)] resolves to
    page 1, [gotoLine(10)] to page 2, [gotoLine(39)] to page 3,
    [gotoLine(40)] and [gotoLine(1000)] to page 4. *)
Theorem gotoLine_resolves_page ui_numPaginationItems GET_LINE
    PageBreaks lineNumber isTitle w :
  PAGE_BREAKS w = 0 :: PageBreaks ->
  TOTAL_PAGES w = Z.of_nat (length PageBreaks) + 1 ->
  (forall line, lineNumber = Num line ->
                0 <= line \/ Forall (fun breakPoint => 0 <= breakPoint)
                               PageBreaks) ->
  (forall k breakPoint,
      PageBreaks !! k = Some breakPoint ->
      gt breakPoint lineNumber = true ->
      (forall j earlier, (j < k)%nat -> PageBreaks !! j = Some earlier ->
                         gt earlier lineNumber = false) ->
      needToGoPage lineNumber w
      = Z.max 1 (Z.min (Z.of_nat k + 1) (TOTAL_PAGES w)))
  /\ (Forall (fun breakPoint => gt breakPoint lineNumber = false) PageBreaks ->
      needToGoPage lineNumber w = TOTAL_PAGES w)
  /\ 1 <= needToGoPage lineNumber w <= TOTAL_PAGES w
  /\ (exists w' c,
        gotoLine ui_numPaginationItems GET_LINE lineNumber isTitle w = (w', c)
        /\ CURRENT_PAGE w' = needToGoPage lineNumber w)
  /\ (PageBreaks = [10; 25; 40] ->
      TOTAL_PAGES w = 4
      /\ needToGoPage (Num 9) w = 1
      /\ needToGoPage (Num 10) w = 2
      /\ needToGoPage (Num 39) w = 3
      /\ needToGoPage (Num 40) w = 4
      /\ needToGoPage (Num 1000) w = 4).
Proof.
  intros Hbreaks Htotal Hline.
  assert (Hzero : gt 0 lineNumber = true ->
                  Forall (fun breakPoint => 0 <= breakPoint) PageBreaks
                  /\ forall breakPoint,
                       breakPoint ∈ PageBreaks ->
                       gt breakPoint lineNumber = true).
  { destruct lineNumber as [|line]; [discriminate|]. simpl.
    intros Hbelow. apply Z.ltb_lt in Hbelow.
    destruct (Hline line eq_refl) as [|Hall]; [lia|]. split; [exact Hall|].
    intros breakPoint Hin. rewrite Forall_forall in Hall.
    specialize (Hall _ Hin). apply Z.ltb_lt. lia. }
  split; [|split; [|split; [|split]]].
  - intros k breakPoint Hk Hgt Hbefore.
    destruct (gt 0 lineNumber) eqn:Hfirst.
    + destruct (Hzero eq_refl) as [_ Hall].
      assert (k = 0%nat) as ->.
      { destruct k as [|k]; [reflexivity|].
        destruct (lookup_lt_is_Some_2 PageBreaks 0) as [b0 Hb0];
          [apply lookup_lt_Some in Hk; lia|].
        pose proof (Hbefore 0%nat b0 ltac:(lia) Hb0) as Hnot.
        rewrite (Hall b0) in Hnot;
          [discriminate | now apply list_elem_of_lookup_2 in Hb0]. }
      rewrite (needToGoPage_first lineNumber w 0 0);
        [lia | now rewrite Hbreaks | exact Hfirst | intros j e Hj; lia].
    + rewrite (needToGoPage_first lineNumber w (S k) breakPoint);
        [lia | now rewrite Hbreaks | exact Hgt |].
      intros [|j] earlier Hj Hearlier; rewrite Hbreaks in Hearlier;
        simpl in Hearlier.
      * now injection Hearlier as <-.
      * apply (Hbefore j earlier); [lia | exact Hearlier].
  - intros Hnone. destruct (gt 0 lineNumber) eqn:Hfirst.
    + destruct (Hzero eq_refl) as [_ Hall].
      assert (PageBreaks = []) as ->.
      { destruct PageBreaks as [|b0 rest]; [reflexivity|].
        apply Forall_cons in Hnone as [Hb0 _].
        rewrite (Hall b0) in Hb0; [discriminate | left]. }
      rewrite (needToGoPage_first lineNumber w 0 0);
        [simpl in Htotal; lia | now rewrite Hbreaks | exact Hfirst
        | intros j e Hj; lia].
    + rewrite needToGoPage_none;
        [rewrite Hbreaks; simpl length; lia|].
      rewrite Hbreaks. now constructor.
  - unfold needToGoPage. lia.
  - destruct (gotoLine_sets_page ui_numPaginationItems GET_LINE
                lineNumber isTitle w) as (w' & c & Hrun & Hpage & _).
    eauto.
  - intros ->. unfold needToGoPage. rewrite Hbreaks, Htotal. repeat split.
Qed.

Lemma gotoLine_resolves_page_witness :
  PAGE_BREAKS spec_book = 0 :: [10; 25; 40]
  /\ TOTAL_PAGES spec_book = 4
  /\ needToGoPage (Num 9) spec_book = 1
  /\ needToGoPage (Num 10) spec_book = 2
  /\ needToGoPage (Num 39) spec_book = 3
  /\ needToGoPage (Num 40) spec_book = 4
  /\ needToGoPage (Num 1000) spec_book = 4.
Proof.
  split; [reflexivity|].
  apply (gotoLine_resolves_page 9 no_line [10; 25; 40] (Num 39) false
           spec_book);
    [reflexivity | reflexivity | | reflexivity].
  intros line Hline. left. injection Hline as <-. lia.
Defined.

(** ** Going to a page *)

(** C7 (clamping): in a state with [TOTAL_PAGES >= 1], [gotoPage] completes
    normally for every requested page.  When the request is not a number the
    current page is kept; otherwise the current page becomes the request
    clamped into [1, TOTAL_PAGES]: the request itself when it is in range, 1
    when it is below 1, [TOTAL_PAGES] when it is above.  In particular
    [gotoPage(0)] sets the current page to 1 and [gotoPage(TOTAL_PAGES + 5)]
    sets it to [TOTAL_PAGES].  The strip is configured with room for at least
    five entries. *)
Theorem gotoPage_clamps ui_numPaginationItems page scrollTo w :
  5 <= ui_numPaginationItems ->
  1 <= TOTAL_PAGES w ->
  exists w',
    gotoPage ui_numPaginationItems page scrollTo w = (w', Normal tt)
    /\ TOTAL_PAGES w' = TOTAL_PAGES w
    /\ (isNaN page = true -> CURRENT_PAGE w' = CURRENT_PAGE w)
    /\ (forall requested, page = Num requested ->
          1 <= CURRENT_PAGE w' <= TOTAL_PAGES w
          /\ (1 <= requested <= TOTAL_PAGES w -> CURRENT_PAGE w' = requested)
          /\ (requested < 1 -> CURRENT_PAGE w' = 1)
          /\ (TOTAL_PAGES w < requested -> CURRENT_PAGE w' = TOTAL_PAGES w))
    /\ (page = Num 0 -> CURRENT_PAGE w' = 1)
    /\ (page = Num (TOTAL_PAGES w + 5) -> CURRENT_PAGE w' = TOTAL_PAGES w).
Proof.
  intros Hitems Htotal.
  destruct (gotoPage_run ui_numPaginationItems page scrollTo w)
    as (es & c & Hrun & Hnormal).
  rewrite (Hnormal Hitems) in Hrun.
  eexists. split; [exact Hrun|]. simpl.
  split; [reflexivity|]. split; [|split; [|split]].
  - destruct page; [reflexivity | discriminate].
  - intros requested ->. simpl. lia.
  - intros ->. simpl. lia.
  - intros ->. simpl. lia.
Qed.

Lemma gotoPage_clamps_witness :
  5 <= 9 /\ 1 <= TOTAL_PAGES four_pages
  /\ exists w',
       gotoPage 9 (Num 0) scroll_top four_pages = (w', Normal tt)
       /\ CURRENT_PAGE w' = 1.
Proof.
  split; [lia|]. split; [simpl; lia|].
  destruct (gotoPage_clamps 9 (Num 0) scroll_top four_pages)
    as (w' & Hrun & _ & _ & _ & Hzero & _); [lia | simpl; lia |].
  exists w'. split; [exact Hrun | now apply Hzero].
Defined.

(** ** The current page stays in range *)

Lemma gotoPage_in_range ui_numPaginationItems page scrollTo w :
  1 <= TOTAL_PAGES w -> page_in_range w ->
  exists w' c,
    gotoPage ui_numPaginationItems page scrollTo w = (w', c)
    /\ (5 <= ui_numPaginationItems -> c = Normal tt)
    /\ TOTAL_PAGES w' = TOTAL_PAGES w /\ page_in_range w'.
Proof.
  intros Htotal Hrange.
  destruct (gotoPage_run ui_numPaginationItems page scrollTo w)
    as (es & c & Hrun & Hnormal).
  do 2 eexists. split; [exact Hrun|]. split; [exact Hnormal|].
  split; [reflexivity|].
  unfold page_in_range. simpl. now apply clampPage_in_range.
Qed.

Lemma gotoPageInputField_in_range ui_numPaginationItems parseInt e scrollTo w :
  1 <= TOTAL_PAGES w -> page_in_range w ->
  exists w' c,
    gotoPageInputField ui_numPaginationItems parseInt e scrollTo w = (w', c)
    /\ (5 <= ui_numPaginationItems -> c = Normal tt)
    /\ TOTAL_PAGES w' = TOTAL_PAGES w /\ page_in_range w'.
Proof.
  intros Htotal Hrange.
  destruct (gotoPageInputField_run ui_numPaginationItems parseInt
              e scrollTo w) as (es & c & Hrun & Hnormal).
  do 2 eexists. split; [exact Hrun|]. split; [exact Hnormal|].
  destruct (String.eqb (key e) "Enter"); [|auto].
  split; [reflexivity|].
  unfold page_in_range. simpl. now apply clampPage_in_range.
Qed.

Lemma gotoLine_in_range ui_numPaginationItems GET_LINE lineNumber isTitle w :
  1 <= TOTAL_PAGES w ->
  exists w' c,
    gotoLine ui_numPaginationItems GET_LINE lineNumber isTitle w = (w', c)
    /\ (5 <= ui_numPaginationItems -> exists r, c = Normal r)
    /\ TOTAL_PAGES w' = TOTAL_PAGES w /\ page_in_range w'.
Proof.
  intros Htotal.
  destruct (gotoLine_sets_page ui_numPaginationItems GET_LINE
              lineNumber isTitle w)
    as (w' & c & Hrun & Hpage & Hsame & Hnormal).
  exists w', c. repeat split; auto; unfold page_in_range;
    rewrite Hpage, ?Hsame; now apply needToGoPage_in_range.
Qed.

(** ** Pages that are not integers *)

(** On an integer or [NaN], the value [gotoPage] assigns is the one of
    [clampPage]. *)
Lemma Number_clampPage_of_jsnum page w :
  Number.clampPage (Number.of_jsnum page) w
  = Number.of_jsnum (Num (clampPage page w)).
Proof.
  destruct page as [|page]; [reflexivity|].
  unfold Number.clampPage, Number.of_jsnum, clampPage. f_equal.
  assert (Hmin : forall a b, Qmin (inject_Z a) (inject_Z b)
                             = inject_Z (Z.min a b)).
  { intros a b. unfold Qmin, GenericMinMax.gmin, Qcompare, Z.min. simpl.
    rewrite !Z.mul_1_r. now destruct (a ?= b). }
  assert (Hmax : forall a b, Qmax (inject_Z a) (inject_Z b)
                             = inject_Z (Z.max a b)).
  { intros a b. unfold Qmax, GenericMinMax.gmax, Qcompare, Z.max. simpl.
    rewrite !Z.mul_1_r. now destruct (a ?= b). }
  rewrite Hmin. change 1%Q with (inject_Z 1). apply Hmax.
Qed.

(** Whatever number the page is, the value [gotoPage] assigns lies in
    [1, TOTAL_PAGES]. *)
Lemma Number_clampPage_in_range page w :
  1 <= TOTAL_PAGES w ->
  page_in_range w ->
  Number.in_range (Number.clampPage page w) w = true.
Proof.
  intros Htotal [Hlow Hhigh].
  assert (Hone : (1 <= inject_Z (TOTAL_PAGES w))%Q)
    by (change 1%Q with (inject_Z 1); now rewrite <- Zle_Qle).
  destruct page as [|page|[|]]; unfold Number.clampPage, Number.in_range;
    apply andb_true_iff; split; apply Qle_bool_iff.
  - change 1%Q with (inject_Z 1). now rewrite <- Zle_Qle.
  - now rewrite <- Zle_Qle.
  - apply Q.le_max_l.
  - apply Q.max_lub; [exact Hone | apply Q.le_min_r].
  - apply Qle_refl.
  - exact Hone.
  - apply Q.le_max_l.
  - apply Q.max_lub; [exact Hone | apply Qle_refl].
Qed.

(** It is an integer unless the page is a fraction. *)
Lemma Number_clampPage_integer page w :
  (forall q, page = Number.finite q -> Number.is_integer page = true) ->
  Number.is_integer (Number.clampPage page w) = true.
Proof.
  assert (Hinteger : forall z, Number.is_integer (Number.finite (inject_Z z))
                               = true).
  { intros z. unfold Number.is_integer. simpl. now rewrite Z.mod_1_r. }
  intros Hpage. destruct page as [|page|[|]]; unfold Number.clampPage.
  - apply Hinteger.
  - specialize (Hpage page eq_refl).
    unfold Qmax, Qmin, GenericMinMax.gmax, GenericMinMax.gmin.
    destruct (Qcompare page (inject_Z (TOTAL_PAGES w)));
      match goal with
      | |- context [Qcompare ?a ?b] => destruct (Qcompare a b)
      end;
      first [exact Hpage | apply Hinteger | apply (Hinteger 1)].
  - apply (Hinteger 1).
  - unfold Qmax, GenericMinMax.gmax.
    destruct (Qcompare 1 (inject_Z (TOTAL_PAGES w)));
      first [apply Hinteger | apply (Hinteger 1)].
Qed.

(** A fractional line number compares with the page breaks as the integer
    below it. *)
Lemma Number_gt_floor breakPoint q :
  Number.gt breakPoint (Number.finite q) = gt breakPoint (Num (Qfloor q)).
Proof.
  unfold Number.gt, gt.
  destruct (Qcompare q (inject_Z breakPoint)) eqn:Hcompare; symmetry.
  - apply Z.ltb_ge. apply Qeq_alt in Hcompare.
    rewrite <- (Qfloor_Z breakPoint). apply Qfloor_resp_le.
    rewrite Hcompare. apply Qle_refl.
  - apply Z.ltb_lt. apply Qlt_alt in Hcompare. rewrite Zlt_Qlt.
    eapply Qle_lt_trans; [apply Qfloor_le | exact Hcompare].
  - apply Z.ltb_ge. apply Qgt_alt in Hcompare.
    rewrite <- (Qfloor_Z breakPoint). apply Qfloor_resp_le.
    now apply Qlt_le_weak.
Qed.




(** The invariant along any sequence of navigation requests. *)
Lemma navigates_in_range ui_numPaginationItems parseInt GET_LINE w w' :
  rtc (navigates ui_numPaginationItems parseInt GET_LINE) w w' ->
  1 <= TOTAL_PAGES w -> page_in_range w ->
  TOTAL_PAGES w' = TOTAL_PAGES w /\ page_in_range w'.
Proof.
  intros Hsteps. induction Hsteps as [w | w w1 w2 Hstep _ IH].
  - auto.
  - intros Htotal Hrange.
    assert (Hone : TOTAL_PAGES w1 = TOTAL_PAGES w /\ page_in_range w1).
    { destruct Hstep as [page scrollTo w | e scrollTo w | lineNumber isTitle w].
      - destruct (gotoPage_in_range ui_numPaginationItems page scrollTo w)
          as (w' & c & -> & _ & ? & ?); auto.
      - destruct (gotoPageInputField_in_range ui_numPaginationItems parseInt
                    e scrollTo w) as (w' & c & -> & _ & ? & ?); auto.
      - destruct (gotoLine_in_range ui_numPaginationItems GET_LINE
                    lineNumber isTitle w) as (w' & c & -> & _ & ? & ?); auto. }
    destruct Hone as [Htotal1 Hrange1].
    destruct IH as [Htotal2 Hrange2]; [lia | exact Hrange1 |].
    split; [lia | exact Hrange2].
Qed.

(** ** Going to a title *)

(** C10 (a title is always reached): for every line number,
    [gotoLine(lineNumber, true)] returns 0 and appends
    [(FILENAME, lineNumber)] to the history, whatever the DOM lookup would
    answer (the strip being configured with room for at least five entries).
    A call of [gotoLine] that returns -1 has [isTitle = false] and writes no
    history, and such a call exists: it happens when no element is found for
    the line. *)
Theorem gotoLine_title_succeeds ui_numPaginationItems GET_LINE lineNumber w :
  5 <= ui_numPaginationItems ->
  (exists w',
      gotoLine ui_numPaginationItems GET_LINE lineNumber true w
      = (w', Normal 0)
      /\ history w' = history w ++ [(FILENAME w, lineNumber)]
      /\ GOTO_TITLE_CLICKED w' = true)
  /\ (forall other_GET_LINE,
        gotoLine ui_numPaginationItems other_GET_LINE lineNumber true w
        = gotoLine ui_numPaginationItems GET_LINE lineNumber true w)
  /\ (forall isTitle w',
        gotoLine ui_numPaginationItems GET_LINE lineNumber isTitle w
        = (w', Normal (-1)) ->
        isTitle = false /\ history w' = history w)
  /\ ((forall shown, GET_LINE shown lineNumber = None) ->
      exists w',
        gotoLine ui_numPaginationItems GET_LINE lineNumber false w
        = (w', Normal (-1))
        /\ history w' = history w).
Proof.
  intros Hitems.
  destruct (gotoLine_run ui_numPaginationItems GET_LINE lineNumber true w)
    as (es & c & Hnormal & Htitle).
  rewrite (Hnormal Hitems) in Htitle. simpl in Htitle.
  destruct (gotoLine_run ui_numPaginationItems GET_LINE lineNumber false w)
    as (es' & c' & Hnormal' & Hline).
  rewrite (Hnormal' Hitems) in Hline. simpl in Hline.
  split; [|split; [|split]].
  - eexists. split; [exact Htitle|]. split; reflexivity.
  - intros other_GET_LINE. reflexivity.
  - intros isTitle w' Hfail.
    destruct isTitle; [rewrite Htitle in Hfail; discriminate|].
    split; [reflexivity|].
    rewrite Hline in Hfail.
    destruct (GET_LINE _ lineNumber) as [line|];
      [destruct (scrollIntoView_throws line)|];
      inversion Hfail; reflexivity.
  - intros Hmissing. rewrite Hmissing in Hline.
    eexists. split; [exact Hline | reflexivity].
Qed.

Lemma gotoLine_title_succeeds_witness :
  5 <= 9
  /\ exists w',
       gotoLine 9 no_line (Num 39) true four_pages = (w', Normal 0)
       /\ history w' = history four_pages ++ [(FILENAME four_pages, Num 39)]
       /\ GOTO_TITLE_CLICKED w' = true.
Proof.
  split; [lia|].
  apply (gotoLine_title_succeeds 9 no_line (Num 39) four_pages). lia.
Defined.

(** ** The resolved page is the one that renders the line *)

Lemma findIndex_cases {A} (p : A -> bool) (arr : list A) :
  Forall (fun x => p x = false) arr
  \/ exists k x,
       arr !! k = Some x /\ p x = true
       /\ forall j y, (j < k)%nat -> arr !! j = Some y -> p y = false.
Proof.
  induction arr as [|a arr IH].
  - left. constructor.
  - destruct (p a) eqn:Ha.
    + right. exists 0%nat, a. repeat split; auto. intros j y Hj. lia.
    + destruct IH as [Hall | (k & x & Hk & Hx & Hbefore)].
      * left. now constructor.
      * right. exists (S k), x. repeat split; auto.
        intros [|j] y Hj Hy; simpl in Hy.
        -- congruence.
        -- apply (Hbefore j y); [lia | exact Hy].
Qed.

Lemma index_or_found arr i (k : nat) v d :
  i = Z.of_nat k -> arr !! k = Some v -> v <> 0 -> index_or arr i d = v.
Proof.
  intros -> Hk Hv. unfold index_or, index.
  destruct (Z.ltb_spec (Z.of_nat k) 0); [lia|].
  rewrite Nat2Z.id, Hk. destruct (Z.eqb_spec v 0); [contradiction | reflexivity].
Qed.

Lemma index_or_start arr i (k : nat) v bound :
  i = Z.of_nat k -> arr !! k = Some v -> v <= bound -> 0 <= bound ->
  index_or arr i 0 <= bound.
Proof.
  intros -> Hk Hv Hbound. unfold index_or, index.
  destruct (Z.ltb_spec (Z.of_nat k) 0); [lia|].
  rewrite Nat2Z.id, Hk. destruct (Z.eqb_spec v 0); lia.
Qed.

Lemma index_or_beyond arr i d :
  Z.of_nat (length arr) <= i -> index_or arr i d = d.
Proof.
  intros Hi. unfold index_or, index.
  destruct (Z.ltb_spec i 0); [reflexivity|].
  rewrite lookup_ge_None_2 by lia. reflexivity.
Qed.

(** When [PAGE_BREAKS] holds the first chunk of every page, beginning with
    0, and [TOTAL_PAGES] is its length, the page [gotoLine] resolves for a
    line of the content is the page whose range
    [startIndex <= j < endIndex] holds that line. *)
Lemma needToGoPage_shows_line lineNumber w rest :
  PAGE_BREAKS w = 0 :: rest ->
  TOTAL_PAGES w = Z.of_nat (length (PAGE_BREAKS w)) ->
  0 <= lineNumber < maxLines w ->
  let shown := set_CURRENT_PAGE (needToGoPage (Num lineNumber) w) w in
  startIndex shown <= lineNumber < endIndex shown.
Proof.
  intros Hbreaks Htotal Hline shown.
  assert (Hlen : (1 <= length (PAGE_BREAKS w))%nat)
    by (rewrite Hbreaks; simpl; lia).
  unfold startIndex, endIndex, shown. simpl.
  change (maxLines (set_CURRENT_PAGE _ w)) with (maxLines w).
  destruct (findIndex_cases (fun breakPoint => gt breakPoint (Num lineNumber))
              (PAGE_BREAKS w)) as [Hall | (k & b & Hk & Hb & Hbefore)].
  - rewrite (needToGoPage_none _ _ Hall), <- Htotal.
    replace (Z.max 1 (Z.min (TOTAL_PAGES w) (TOTAL_PAGES w)))
      with (TOTAL_PAGES w) by lia.
    rewrite Htotal. split.
    + destruct (lookup_lt_is_Some_2 (PAGE_BREAKS w)
                  (length (PAGE_BREAKS w) - 1)) as [y Hy]; [lia|].
      apply (index_or_start _ _ (length (PAGE_BREAKS w) - 1) y);
        [lia | exact Hy | | lia].
      rewrite Forall_lookup in Hall. specialize (Hall _ _ Hy).
      simpl in Hall. apply Z.ltb_ge in Hall. exact Hall.
    + rewrite index_or_beyond by lia. lia.
  - apply gt_Num in Hb.
    assert (Hk0 : k <> 0%nat).
    { intros ->. rewrite Hbreaks in Hk. simpl in Hk. injection Hk as <-. lia. }
    pose proof (lookup_lt_Some _ _ _ Hk) as Hklen.
    rewrite (needToGoPage_first _ _ k b Hk); [| now apply gt_Num | exact Hbefore].
    replace (Z.max 1 (Z.min (Z.of_nat k) (TOTAL_PAGES w)))
      with (Z.of_nat k) by lia.
    split.
    + destruct (lookup_lt_is_Some_2 (PAGE_BREAKS w) (k - 1)) as [y Hy]; [lia|].
      apply (index_or_start _ _ (k - 1) y); [lia | exact Hy | | lia].
      specialize (Hbefore (k - 1)%nat y ltac:(lia) Hy).
      simpl in Hbefore. apply Z.ltb_ge in Hbefore. exact Hbefore.
    + rewrite (index_or_found _ _ k b); [lia | reflexivity | exact Hk | lia].
Qed.

(** * Further properties of the page list *)

(** ** Its length *)

(** The strip never has more entries than [maxLength]: without processing
    it has [totalPages] entries when all pages fit and exactly [maxLength]
    entries otherwise, whatever the current page is. *)
Theorem getPageList_length totalPages currentPage maxLength duringProcessing :
  5 <= maxLength ->
  0 <= totalPages ->
  exists pages,
    _getPageList totalPages currentPage maxLength duringProcessing
    = Normal pages
    /\ Z.of_nat (length pages) <= Z.min totalPages maxLength
    /\ (duringProcessing = false ->
        Z.of_nat (length pages) = Z.min totalPages maxLength).
Proof.
  intros Hmax Htotal.
  pose proof (widths_spec maxLength Hmax) as (Hside & Hleft & Hright & Hsum).
  page_cases; try lia; destruct duringProcessing; eexists;
    (split; [reflexivity|]);
    rewrite ?length_app, ?length_range; simpl length;
    (split; [|intros; try discriminate]); lia.
Qed.

Lemma getPageList_length_witness :
  exists pages,
    _getPageList 100 50 9 false = Normal pages
    /\ Z.of_nat (length pages) <= Z.min 100 9
    /\ (false = false -> Z.of_nat (length pages) = Z.min 100 9).
Proof. apply (getPageList_length 100 50 9 false); lia. Defined.

(** ** Its entries *)

Lemma Forall_range (P : Z -> Prop) start end_ :
  (forall k, start <= k <= end_ -> P k) -> Forall P (range start end_).
Proof.
  intros HP. apply Forall_forall. intros k Hk. apply HP.
  now apply elem_of_range.
Qed.

Lemma head_range start end_ :
  start <= end_ -> head (range start end_) = Some start.
Proof.
  intros Hle. rewrite range_seqZ, seqZ_cons by lia. reflexivity.
Qed.

Lemma last_range start end_ :
  start <= end_ -> last (range start end_) = Some end_.
Proof.
  intros Hle. rewrite range_seqZ.
  replace (end_ - start + 1) with (Z.of_nat (S (Z.to_nat (end_ - start))))
    by lia.
  rewrite seqZ_S, last_snoc. f_equal. lia.
Qed.

(** Every entry of the strip is a gap or a page between 1 and
    [totalPages]; the strip begins with page 1, and without processing it
    ends with page [totalPages]. *)
Theorem getPageList_entries totalPages currentPage maxLength duringProcessing :
  5 <= maxLength ->
  1 <= currentPage <= totalPages ->
  exists pages,
    _getPageList totalPages currentPage maxLength duringProcessing
    = Normal pages
    /\ Forall (fun entry => entry = 0 \/ 1 <= entry <= totalPages) pages
    /\ head pages = Some 1
    /\ (duringProcessing = false -> last pages = Some totalPages).
Proof.
  intros Hmax Hcur.
  pose proof (widths_spec maxLength Hmax) as (Hside & Hleft & Hright & Hsum).
  assert (Hhead : forall end_ rest,
             1 <= end_ -> head (range 1 end_ ++ rest) = Some 1).
  { intros end_ rest Hend. rewrite range_seqZ, seqZ_cons by lia.
    reflexivity. }
  assert (Hlast : forall front start,
             start <= totalPages ->
             last (front ++ range start totalPages) = Some totalPages).
  { intros front start Hstart.
    rewrite last_app, last_range by lia. reflexivity. }
  page_cases; try lia; destruct duringProcessing; eexists;
    (split; [reflexivity|]);
    (split; [rewrite ?Forall_app, ?Forall_singleton;
             repeat split; auto; apply Forall_range; lia|]);
    (split; [first [apply head_range; lia | apply Hhead; lia]|]);
    intros Hdp; try discriminate;
    rewrite ?app_assoc;
    first [apply last_range; lia | apply Hlast; lia].
Qed.

Lemma getPageList_entries_witness :
  exists pages,
    _getPageList 100 98 7 false = Normal pages
    /\ Forall (fun entry => entry = 0 \/ 1 <= entry <= 100) pages
    /\ head pages = Some 1
    /\ (false = false -> last pages = Some 100).
Proof. apply (getPageList_entries 100 98 7 false); lia. Defined.

(** ** Its shape *)

(** When not all pages fit, the full strip is either [1 .. a], a gap and
    [b .. totalPages], or [1 .. a], a gap, [b .. c], a gap and
    [d .. totalPages].  Each gap stands for at least two pages that are not
    shown, and the current page is inside one of the runs. *)
Theorem getPageList_shape totalPages currentPage maxLength :
  5 <= maxLength ->
  1 <= currentPage <= totalPages ->
  maxLength < totalPages ->
  exists pages,
    _getPageList totalPages currentPage maxLength false = Normal pages
    /\ ((exists a b,
            pages = range 1 a ++ [0] ++ range b totalPages
            /\ 1 <= a /\ a + 3 <= b <= totalPages
            /\ (currentPage <= a \/ b <= currentPage))
        \/ (exists a b c d,
               pages = range 1 a ++ [0] ++ range b c
                         ++ [0] ++ range d totalPages
               /\ 1 <= a /\ a + 3 <= b
               /\ b <= currentPage <= c
               /\ c + 3 <= d <= totalPages)).
Proof.
  intros Hmax Hcur Hmany.
  pose proof (widths_spec maxLength Hmax) as (Hside & Hleft & Hright & Hsum).
  page_cases; try lia; eexists; (split; [reflexivity|]).
  - left. do 2 eexists. split; [reflexivity|]. lia.
  - left. do 2 eexists. split; [reflexivity|]. lia.
  - right. do 4 eexists. split; [reflexivity|]. lia.
Qed.

Lemma getPageList_shape_witness :
  exists pages,
    _getPageList 100 50 9 false = Normal pages
    /\ ((exists a b,
            pages = range 1 a ++ [0] ++ range b 100
            /\ 1 <= a /\ a + 3 <= b <= 100
            /\ (50 <= a \/ b <= 50))
        \/ (exists a b c d,
               pages = range 1 a ++ [0] ++ range b c ++ [0] ++ range d 100
               /\ 1 <= a /\ a + 3 <= b
               /\ b <= 50 <= c
               /\ c + 3 <= d <= 100)).
Proof. apply (getPageList_shape 100 50 9); lia. Defined.

(** ** Its order *)

(** The pages of a list, without the gaps. *)
Lemma filter_pages_app (l1 l2 : list Z) :
  filter (fun p => p <> 0) (l1 ++ l2)
  = filter (fun p => p <> 0) l1 ++ filter (fun p => p <> 0) l2.
Proof. apply filter_app. Qed.

Lemma filter_pages_id (l : list Z) :
  0 ∉ l -> filter (fun p => p <> 0) l = l.
Proof.
  induction l as [|x l IH]; intros Hnot; [reflexivity|].
  rewrite not_elem_of_cons in Hnot. destruct Hnot as [Hx Hl].
  rewrite filter_cons, decide_True by congruence. f_equal. now apply IH.
Qed.

Lemma filter_pages_range start end_ :
  0 < start -> filter (fun p => p <> 0) (range start end_) = range start end_.
Proof.
  intros Hpos. apply filter_pages_id. rewrite elem_of_range. lia.
Qed.

Lemma StronglySorted_range start end_ : StronglySorted Z.lt (range start end_).
Proof.
  unfold range. generalize (Z.to_nat (end_ - start + 1)) as len.
  intros len. generalize 0%nat as from. induction len as [|len IH]; intros from.
  - constructor.
  - simpl. constructor; [apply IH|].
    apply Forall_fmap, Forall_forall. intros i Hi. simpl.
    apply elem_of_seq in Hi. lia.
Qed.

Lemma increasing_below_nil bound : increasing_below bound [].
Proof. split; constructor. Qed.

Lemma increasing_below_range bound pages start end_ :
  increasing_below bound pages ->
  0 < start -> bound <= start -> start <= end_ + 1 ->
  increasing_below (end_ + 1) (pages ++ range start end_).
Proof.
  intros [Hsorted Hbelow] Hpos Hbound Hlen. split.
  - rewrite filter_pages_app, filter_pages_range by exact Hpos.
    apply StronglySorted_app. split; [|split];
      [| exact Hsorted | apply StronglySorted_range].
    intros x1 x2 Hx1 Hx2. apply elem_of_range in Hx2.
    apply list_elem_of_filter in Hx1 as [_ Hx1].
    rewrite Forall_forall in Hbelow. specialize (Hbelow _ Hx1). lia.
  - apply Forall_app. split.
    + eapply Forall_impl; [exact Hbelow|]. simpl. intros. lia.
    + apply Forall_range. lia.
Qed.

Lemma increasing_below_gap bound pages :
  increasing_below bound pages -> 0 < bound ->
  increasing_below bound (pages ++ [0]).
Proof.
  intros [Hsorted Hbelow] Hpos. split.
  - rewrite filter_pages_app. simpl. now rewrite app_nil_r.
  - apply Forall_app. split; [exact Hbelow|]. now apply Forall_singleton.
Qed.

Lemma increasing_below_first start end_ :
  0 < start -> start <= end_ + 1 ->
  increasing_below (end_ + 1) (range start end_).
Proof.
  intros Hpos Hlen.
  apply (increasing_below_range start [] start end_);
    [apply increasing_below_nil | lia ..].
Qed.

(** Builds the strip from left to right. *)
Ltac increasing :=
  first [ eapply increasing_below_first; lia
        | eapply increasing_below_gap; [increasing | lia]
        | eapply increasing_below_range; [increasing | lia ..] ].

(** The pages of the strip, gaps aside, are in strictly increasing order, so
    no page is shown twice. *)
Theorem getPageList_increasing totalPages currentPage maxLength
    duringProcessing :
  5 <= maxLength ->
  1 <= currentPage <= totalPages ->
  exists pages,
    _getPageList totalPages currentPage maxLength duringProcessing
    = Normal pages
    /\ StronglySorted Z.lt (filter (fun p => p <> 0) pages)
    /\ NoDup (filter (fun p => p <> 0) pages).
Proof.
  intros Hmax Hcur.
  pose proof (widths_spec maxLength Hmax) as (Hside & Hleft & Hright & Hsum).
  assert (Hnodup : forall l : list Z, StronglySorted Z.lt l -> NoDup l).
  { intros l Hl. induction Hl as [|x l _ IH Hx]; constructor; [|exact IH].
    intros Hin. rewrite Forall_forall in Hx. specialize (Hx _ Hin). lia. }
  assert (Hgoal : forall pages : list Z,
             (exists bound, increasing_below bound pages) ->
             StronglySorted Z.lt (filter (fun p => p <> 0) pages)
             /\ NoDup (filter (fun p => p <> 0) pages)).
  { intros pages [bound [Hsorted _]]. auto. }
  page_cases; try lia; destruct duringProcessing; eexists;
    (split; [reflexivity|]); apply Hgoal; eexists;
    rewrite ?app_assoc; increasing.
Qed.

Lemma getPageList_increasing_witness :
  exists pages,
    _getPageList 100 50 9 true = Normal pages
    /\ StronglySorted Z.lt (filter (fun p => p <> 0) pages)
    /\ NoDup (filter (fun p => p <> 0) pages).
Proof. apply (getPageList_increasing 100 50 9 true); lia. Defined.

(** ** The current page and the last page in the strip *)

(** The full strip always shows the current page.  While processing, the
    strip shows it unless the current page belongs to the end cluster only:
    there the strip is cut after the first gap. *)
Theorem getPageList_shows_current totalPages currentPage maxLength :
  5 <= maxLength ->
  1 <= currentPage <= totalPages ->
  (exists pages,
      _getPageList totalPages currentPage maxLength false = Normal pages
      /\ currentPage ∈ pages)
  /\ (exists pages,
         _getPageList totalPages currentPage maxLength true = Normal pages
         /\ (currentPage ∈ pages <->
             totalPages <= maxLength
             \/ currentPage
                  <= maxLength - sideWidth maxLength - 1 - rightWidth maxLength
             \/ currentPage
                  < totalPages - sideWidth maxLength - 1
                      - rightWidth maxLength)).
Proof.
  intros Hmax Hcur.
  pose proof (widths_spec maxLength Hmax) as (Hside & Hleft & Hright & Hsum).
  split; page_cases; try lia; eexists; (split; [reflexivity|]);
    rewrite ?elem_of_app, ?elem_of_range, ?list_elem_of_singleton; lia.
Qed.

Lemma getPageList_shows_current_witness :
  (exists pages,
      _getPageList 100 98 7 false = Normal pages /\ 98 ∈ pages)
  /\ (exists pages,
         _getPageList 100 98 7 true = Normal pages
         /\ (98 ∈ pages <->
             100 <= 7
             \/ 98 <= 7 - sideWidth 7 - 1 - rightWidth 7
             \/ 98 < 100 - sideWidth 7 - 1 - rightWidth 7)).
Proof. apply (getPageList_shows_current 100 98 7); lia. Defined.

(** While processing, a strip that cannot show all pages ends with a gap
    and never shows the last page, whatever the current page is. *)
Theorem getPageList_processing_hides_last totalPages currentPage maxLength :
  5 <= maxLength ->
  maxLength < totalPages ->
  exists pages,
    _getPageList totalPages currentPage maxLength true = Normal pages
    /\ last pages = Some 0
    /\ totalPages ∉ pages.
Proof.
  intros Hmax Hmany.
  pose proof (widths_spec maxLength Hmax) as (Hside & Hleft & Hright & Hsum).
  page_cases; try lia; eexists; (split; [reflexivity|]);
    (split; [rewrite ?app_assoc; apply last_snoc|]);
    rewrite ?elem_of_app, ?elem_of_range, ?list_elem_of_singleton; lia.
Qed.

Lemma getPageList_processing_hides_last_witness :
  exists pages,
    _getPageList 100 1 7 true = Normal pages
    /\ last pages = Some 0
    /\ 100 ∉ pages.
Proof. apply (getPageList_processing_hides_last 100 1 7); lia. Defined.

(** * Numbers in strings *)

Lemma keep_digits_app s1 s2 :
  Text.keep_digits (s1 ++ s2)%string
  = (Text.keep_digits s1 ++ Text.keep_digits s2)%string.
Proof.
  induction s1 as [|c s1 IH]; simpl; [reflexivity|].
  destruct (Text.is_digit c); simpl; now rewrite IH.
Qed.

Lemma keep_digits_uint d :
  Text.keep_digits (NilEmpty.string_of_uint d) = NilEmpty.string_of_uint d.
Proof.
  induction d as [|d IH|d IH|d IH|d IH|d IH|d IH|d IH|d IH|d IH|d IH];
    simpl; [reflexivity | now rewrite IH ..].
Qed.

Lemma trim_start_uint d :
  Text.trim_start (NilEmpty.string_of_uint d) = NilEmpty.string_of_uint d.
Proof. destruct d; reflexivity. Qed.

Lemma strip_sign_uint d :
  Text.strip_sign (NilEmpty.string_of_uint d)
  = (1, NilEmpty.string_of_uint d).
Proof. destruct d; reflexivity. Qed.

Lemma strip_hex_prefix_uint d :
  Text.strip_hex_prefix (NilEmpty.string_of_uint d) = None.
Proof.
  destruct d as [|d|d|d|d|d|d|d|d|d|d]; try reflexivity;
    destruct d; reflexivity.
Qed.

Lemma digits_value_uint_acc d (acc : positive) :
  Text.digits_value 10 (Z.pos acc) (NilEmpty.string_of_uint d)
  = Z.pos (Pos.of_uint_acc d acc).
Proof.
  revert acc.
  induction d as [|d IH|d IH|d IH|d IH|d IH|d IH|d IH|d IH|d IH|d IH];
    intros acc; [reflexivity | ..];
    cbn [NilEmpty.string_of_uint Text.digits_value Pos.of_uint_acc];
    match goal with
    | |- context [Text.digit_of 10 ?c] =>
        change (Text.digit_of 10 c) with (Some (Text.code c - 48))
    end;
    rewrite <- IH; f_equal;
    match goal with
    | |- context [Text.code ?c] =>
        let v := eval vm_compute in (Text.code c) in
        change (Text.code c) with v
    end; lia.
Qed.

Lemma digits_value_uint d :
  Text.digits_value 10 0 (NilEmpty.string_of_uint d) = Z.of_N (Pos.of_uint d).
Proof.
  induction d as [|d IH|d IH|d IH|d IH|d IH|d IH|d IH|d IH|d IH|d IH];
    [reflexivity | exact IH | ..];
    cbn [NilEmpty.string_of_uint Text.digits_value Pos.of_uint];
    match goal with
    | |- context [Text.digit_of 10 ?c] =>
        change (Text.digit_of 10 c) with (Some (Text.code c - 48))
    end;
    cbn [Z.of_N]; rewrite <- digits_value_uint_acc; reflexivity.
Qed.

(** [parseInt], in base 10 or without a radix, reads a written number
    back. *)
Lemma parseInt_uint d radix :
  d <> Decimal.Nil -> radix = 0 \/ radix = 10 ->
  Text.parseInt (NilEmpty.string_of_uint d) radix
  = Num (Z.of_N (Pos.of_uint d)).
Proof.
  intros Hd Hradix. unfold Text.parseInt.
  rewrite trim_start_uint, strip_sign_uint.
  assert (Hscan :
            match NilEmpty.string_of_uint d with
            | String c _ =>
                match Text.digit_of 10 c with
                | Some _ =>
                    Num (1 * Text.digits_value 10 0 (NilEmpty.string_of_uint d))
                | None => NaN
                end
            | EmptyString => NaN
            end = Num (Z.of_N (Pos.of_uint d))).
  { rewrite digits_value_uint, Z.mul_1_l.
    destruct d; [contradiction | reflexivity ..]. }
  destruct Hradix as [-> | ->]; simpl negb; cbn [andb orb Z.eqb];
    rewrite ?strip_hex_prefix_uint; exact Hscan.
Qed.

Lemma of_number_nonneg z :
  0 <= z ->
  exists d, d <> Decimal.Nil
            /\ Text.of_number z = NilEmpty.string_of_uint d
            /\ Z.of_N (Pos.of_uint d) = z.
Proof.
  intros Hz. destruct z as [|p|p]; [| |lia].
  - exists (Decimal.D0 Decimal.Nil). repeat split. discriminate.
  - exists (Pos.to_uint p). split; [apply Unsigned.to_uint_nonnil|]. split.
    + unfold Text.of_number. simpl.
      pose proof (Unsigned.to_uint_nonnil p) as Hnil.
      destruct (Pos.to_uint p); [contradiction | reflexivity ..].
    + now rewrite Unsigned.of_to.
Qed.

Lemma parseInt_of_number z radix :
  radix = 0 \/ radix = 10 ->
  Text.parseInt (Text.of_number z) radix = Num z.
Proof.
  intros Hradix. destruct (Z.le_gt_cases 0 z) as [Hz | Hz].
  - destruct (of_number_nonneg z Hz) as (d & Hd & -> & <-).
    now apply parseInt_uint.
  - destruct z as [|p|p]; try lia.
    destruct (of_number_nonneg (Z.pos p)) as (d & Hd & Hstr & Hval); [lia|].
    pose proof (parseInt_uint d radix Hd Hradix) as Hparse.
    unfold Text.parseInt in Hparse.
    rewrite trim_start_uint, strip_sign_uint in Hparse.
    unfold Text.of_number in Hstr |- *.
    cbn [Z.to_int NilZero.string_of_int] in Hstr |- *. rewrite Hstr.
    unfold Text.parseInt. cbn [Text.trim_start].
    change (Text.is_white_space "-") with false. cbn iota.
    cbn [Text.strip_sign]. change (Ascii.eqb "-" "-") with true. cbn iota.
    destruct (negb (radix =? 0) && ((radix <? 2) || (36 <? radix)));
      [discriminate|].
    destruct (match (if (radix =? 0) || (radix =? 16)
                     then Text.strip_hex_prefix (NilEmpty.string_of_uint d)
                     else None) with
              | Some rest => (16, rest)
              | None => (if radix =? 0 then 10 else radix,
                         NilEmpty.string_of_uint d)
              end) as [R s].
    destruct s as [|c s]; [discriminate|].
    remember (Text.digits_value R 0 (String c s)) as value.
    destruct (Text.digit_of R c); [|discriminate].
    injection Hparse as Hparse. f_equal. lia.
Qed.

(** * Clicks on the table of contents *)

Lemma append_empty_r s : (s ++ EmptyString)%string = s.
Proof. induction s as [|c s IH]; simpl; [reflexivity | now rewrite IH]. Qed.

Lemma prefix_a s : String.prefix "a" ("a" ++ s)%string = true.
Proof. simpl. destruct (ascii_dec "a" "a"); [now destruct s | congruence]. Qed.

(** The id of an anchor of a title is read back as the title's line. *)
Lemma anchor_id_line line suffix :
  0 <= line ->
  Text.keep_digits suffix = EmptyString ->
  Text.parseInt
    (Text.keep_digits ("a" ++ Text.of_number line ++ suffix)%string) 10
  = Num line.
Proof.
  intros Hline Hsuffix.
  destruct (of_number_nonneg line Hline) as (d & Hd & -> & <-).
  change (Text.keep_digits ("a" ++ ?s)%string) with (Text.keep_digits s).
  rewrite keep_digits_app, keep_digits_uint, Hsuffix, append_empty_r.
  apply parseInt_uint; auto.
Qed.

(** What [_handleTOCClick] does once it has read a line number from an
    anchor. *)
Lemma handleTOCClick_line ui_numPaginationItems GET_LINE id line w :
  5 <= ui_numPaginationItems ->
  String.prefix "a" id = true ->
  Text.parseInt (Text.keep_digits id) 10 = Num line ->
  exists w',
    gotoLine ui_numPaginationItems GET_LINE (Num line) true w
    = (w', Normal 0)
    /\ CURRENT_PAGE w' = needToGoPage (Num line) w
    /\ history w' = history w ++ [(FILENAME w, Num line)]
    /\ _handleTOCClick ui_numPaginationItems GET_LINE "A" id w
       = (w',
          match GET_LINE w' (Num line) with
          | Some _ => Normal (click_scrolled (Num line))
          | None =>
              Throw (Error "TypeError: Cannot read properties of null"%string)
          end).
Proof.
  intros Hitems Hprefix Hparse.
  destruct (gotoLine_run ui_numPaginationItems GET_LINE (Num line) true w)
    as (es & c & Hnormal & Hrun).
  rewrite (Hnormal Hitems) in Hrun. simpl in Hrun.
  eexists. split; [exact Hrun|]. split; [reflexivity|]. split; [reflexivity|].
  unfold _handleTOCClick. rewrite Hprefix, Hparse. simpl.
  unfold mbind, M_bind. rewrite Hrun. unfold vars.
  destruct (GET_LINE _ (Num line)); reflexivity.
Qed.

(** A click on an anchor that carries one of the three ids [generate]
    writes for a title at line [lineNum] goes to that line: the handler
    reads [lineNum] back from the id and runs [gotoLine] for it, which shows
    the page of the line and records the line in the history, and then
    scrolls to the line; when the line has no element it ends in a
    [TypeError] instead, after the navigation. *)
Theorem handleTOCClick_title_anchor ui_numPaginationItems GET_LINE
    lineNum id w :
  5 <= ui_numPaginationItems ->
  0 <= lineNum ->
  id ∈ toc_anchor_ids lineNum ->
  exists w',
    gotoLine ui_numPaginationItems GET_LINE (Num lineNum) true w
    = (w', Normal 0)
    /\ CURRENT_PAGE w' = needToGoPage (Num lineNum) w
    /\ history w' = history w ++ [(FILENAME w, Num lineNum)]
    /\ _handleTOCClick ui_numPaginationItems GET_LINE "A" id w
       = (w',
          match GET_LINE w' (Num lineNum) with
          | Some _ => Normal (click_scrolled (Num lineNum))
          | None =>
              Throw (Error "TypeError: Cannot read properties of null"%string)
          end).
Proof.
  intros Hitems Hline Hid. unfold toc_anchor_ids in Hid.
  repeat (apply elem_of_cons in Hid as [-> | Hid]);
    [| | | now apply elem_of_nil in Hid];
    (apply handleTOCClick_line; [exact Hitems | apply prefix_a |]).
  - now apply anchor_id_line.
  - rewrite <- (append_empty_r (Text.of_number lineNum)).
    now apply anchor_id_line.
  - now apply anchor_id_line.
Qed.

Lemma handleTOCClick_title_anchor_witness :
  exists w',
    _handleTOCClick 9 every_line "A" "a39_alt" spec_book
    = (w', Normal (click_scrolled (Num 39)))
    /\ CURRENT_PAGE w' = 3
    /\ history w' = [("book.txt"%string, Num 39)].
Proof.
  destruct (handleTOCClick_title_anchor 9 every_line 39 "a39_alt" spec_book)
    as (w' & _ & Hpage & Hhistory & Hclick);
    [lia | lia | vm_compute; right; right; left |].
  exists w'. split; [exact Hclick|]. split; [exact Hpage | exact Hhistory].
Defined.

Lemma first_digit c :
  Text.is_digit c = true ->
  Text.is_white_space c = false
  /\ Ascii.eqb c "-" = false
  /\ Ascii.eqb c "+" = false
  /\ Text.digit_of 10 c = Some (Text.code c - 48)
  /\ 0 <= Text.code c - 48.
Proof.
  destruct c as [[] [] [] [] [] [] [] []]; intros Hdigit;
    try discriminate Hdigit; repeat split; discriminate.
Qed.

Lemma digit_of_nonneg radix c value :
  Text.digit_of radix c = Some value -> 0 <= value.
Proof.
  unfold Text.digit_of, Text.is_digit.
  destruct (Z.leb_spec 48 (Text.code c)), (Z.leb_spec (Text.code c) 57);
    simpl;
    destruct (Z.leb_spec 97 (Text.code c)), (Z.leb_spec (Text.code c) 122);
    simpl;
    destruct (Z.leb_spec 65 (Text.code c)), (Z.leb_spec (Text.code c) 90);
    simpl;
    match goal with |- context [?a <? ?b] => destruct (a <? b) end;
    intros [= <-]; lia.
Qed.

Lemma digits_value_nonneg radix acc s :
  0 <= radix -> 0 <= acc -> 0 <= Text.digits_value radix acc s.
Proof.
  intros Hradix. revert acc. induction s as [|c s IH]; intros acc Hacc; simpl.
  - exact Hacc.
  - destruct (Text.digit_of radix c) as [value|] eqn:Hvalue; [|exact Hacc].
    apply IH. apply digit_of_nonneg in Hvalue. nia.
Qed.

Lemma keep_digits_digits s :
  Text.keep_digits s = EmptyString
  \/ exists c rest,
       Text.keep_digits s = String c rest /\ Text.is_digit c = true.
Proof.
  induction s as [|c s IH]; simpl; [now left|].
  destruct (Text.is_digit c) eqn:Hc; [right; eauto | exact IH].
Qed.

(** Only the digits of an id are read: the number is never negative, and
    an id without a digit gives [NaN]. *)
Lemma parseInt_keep_digits s :
  (Text.keep_digits s = EmptyString
   /\ Text.parseInt (Text.keep_digits s) 10 = NaN)
  \/ exists line,
       0 <= line /\ Text.parseInt (Text.keep_digits s) 10 = Num line.
Proof.
  destruct (keep_digits_digits s) as [-> | (c & rest & -> & Hc)];
    [left; split; reflexivity|].
  right. destruct (first_digit c Hc) as (Hspace & Hminus & Hplus & Hvalue & _).
  unfold Text.parseInt. cbn [Text.trim_start]. rewrite Hspace.
  cbn [Text.strip_sign]. rewrite Hminus, Hplus.
  cbn [Z.eqb negb andb orb Z.ltb Z.compare Pos.compare Pos.compare_cont].
  change (10 =? 16)%positive with false. cbn iota. rewrite Hvalue. eexists. split; [|reflexivity].
  rewrite Z.mul_1_l. apply digits_value_nonneg; lia.
Qed.

(** A click on the table of contents either changes nothing (the target is
    not an anchor whose id begins with "a", or its id holds no digit), or
    navigates to a line that is never negative: then the page of the line
    is shown and the line is recorded in the history, also when the
    handler ends in a [TypeError] because the line has no element. *)
Theorem handleTOCClick_outcomes ui_numPaginationItems GET_LINE tag id w :
  5 <= ui_numPaginationItems ->
  exists w' c,
    _handleTOCClick ui_numPaginationItems GET_LINE tag id w = (w', c)
    /\ ((w' = w
         /\ (c = Normal click_ignored \/ c = Normal click_prevented))
        \/ exists line,
             0 <= line
             /\ CURRENT_PAGE w' = needToGoPage (Num line) w
             /\ history w' = history w ++ [(FILENAME w, Num line)]
             /\ (c = Normal (click_scrolled (Num line))
                 \/ GET_LINE w' (Num line) = None
                    /\ c = Throw
                             (Error
                                "TypeError: Cannot read properties of null"%string))).
Proof.
  intros Hitems.
  destruct (String.eqb tag "A" && String.prefix "a" id) eqn:Hanchor.
  - apply andb_true_iff in Hanchor as [Htag Hprefix].
    apply String.eqb_eq in Htag. subst tag.
    destruct (parseInt_keep_digits id) as [[_ Hnan] | (line & Hline & Hparse)].
    + exists w, (Normal click_prevented). split; [|left; auto].
      unfold _handleTOCClick. now rewrite Hprefix, Hnan.
    + destruct (handleTOCClick_line ui_numPaginationItems GET_LINE id line w
                  Hitems Hprefix Hparse)
        as (w' & _ & Hpage & Hhistory & Hclick).
      do 2 eexists. split; [exact Hclick|]. right. exists line.
      repeat split; auto.
      destruct (GET_LINE w' (Num line)); [left | right]; auto.
  - exists w, (Normal click_ignored). split; [|left; auto].
    unfold _handleTOCClick. now rewrite Hanchor.
Qed.

Lemma handleTOCClick_outcomes_witness :
  exists w' c,
    _handleTOCClick 9 no_line "A" "a-39" four_pages = (w', c)
    /\ ((w' = four_pages
         /\ (c = Normal click_ignored \/ c = Normal click_prevented))
        \/ exists line,
             0 <= line
             /\ CURRENT_PAGE w' = needToGoPage (Num line) four_pages
             /\ history w'
                = history four_pages ++ [(FILENAME four_pages, Num line)]
             /\ (c = Normal (click_scrolled (Num line))
                 \/ no_line w' (Num line) = None
                    /\ c = Throw
                             (Error
                                "TypeError: Cannot read properties of null"%string))).
Proof. apply (handleTOCClick_outcomes 9 no_line "A" "a-39" four_pages). lia. Defined.

(** * The controls of the strip *)

(** What the strip's controls need to know of the page list. *)
Lemma page_list_facts totalPages currentPage maxLength duringProcessing :
  5 <= maxLength ->
  1 <= currentPage <= totalPages ->
  exists pages,
    _getPageList totalPages currentPage maxLength duringProcessing
    = Normal pages
    /\ Forall (fun entry => entry = 0 \/ 1 <= entry <= totalPages) pages
    /\ (exists rest, pages = 1 :: rest)
    /\ (duringProcessing = false ->
        (exists front, pages = front ++ [totalPages])
        /\ currentPage ∈ pages)
    /\ (duringProcessing = true -> maxLength < totalPages ->
        totalPages ∉ pages).
Proof.
  intros Hmax Hcur.
  pose proof (widths_spec maxLength Hmax) as (Hside & Hleft & Hright & Hsum).
  assert (Hhead : forall end_ rest,
             1 <= end_ -> exists rest', range 1 end_ ++ rest = 1 :: rest').
  { intros end_ rest Hend. rewrite range_seqZ, seqZ_cons by lia.
    simpl. eauto. }
  assert (Hhead0 : forall end_,
             1 <= end_ -> exists rest', range 1 end_ = 1 :: rest').
  { intros end_ Hend. rewrite range_seqZ, seqZ_cons by lia. eauto. }
  assert (Hlast : forall front start,
             start <= totalPages ->
             exists front',
               front ++ range start totalPages = front' ++ [totalPages]).
  { intros front start Hstart.
    apply last_Some. rewrite last_app, last_range by lia. reflexivity. }
  page_cases; try lia; destruct duringProcessing; eexists;
    (split; [reflexivity|]);
    (split; [rewrite ?Forall_app, ?Forall_singleton;
             repeat split; auto; apply Forall_range; lia|]);
    (split; [first [apply Hhead0 | apply Hhead]; lia|]);
    (split;
     [intros Hdp;
      first [discriminate Hdp
            | split;
              [first [apply (Hlast []) | rewrite ?app_assoc; apply Hlast];
               lia
              | rewrite ?elem_of_app, ?elem_of_range,
                  ?list_elem_of_singleton; lia]]
     | intros Hdp Hmany;
       first [discriminate Hdp
             | rewrite ?elem_of_app, ?elem_of_range,
                 ?list_elem_of_singleton; lia]]).
Qed.

Lemma paginationList_from_app w i l1 l2 :
  paginationList_from w i (l1 ++ l2)
  = paginationList_from w i l1
      ++ paginationList_from w (i + Z.of_nat (length l1)) l2.
Proof.
  revert i. induction l1 as [|entry l1 IH]; intros i; simpl.
  - now rewrite Z.add_0_r.
  - rewrite IH, <- app_assoc. do 3 f_equal. lia.
Qed.

Lemma elem_of_paginationList_from w i showPages c :
  c ∈ paginationList_from w i showPages <->
  exists k entry,
    showPages !! k = Some entry /\ c ∈ controls_of w (i + Z.of_nat k) entry.
Proof.
  revert i. induction showPages as [|entry rest IH]; intros i; simpl.
  - split; [intros Hc; now apply elem_of_nil in Hc|].
    intros (k & e & Hk & _). discriminate.
  - rewrite elem_of_app, IH. split.
    + intros [Hc | (k & e & Hk & Hc)].
      * exists 0%nat, entry. rewrite Z.add_0_r. auto.
      * exists (S k), e. split; [exact Hk|].
        now replace (i + Z.of_nat (S k)) with (i + 1 + Z.of_nat k) by lia.
    + intros ([|k] & e & Hk & Hc); simpl in Hk.
      * injection Hk as ->. rewrite Z.add_0_r in Hc. now left.
      * right. exists k, e. split; [exact Hk|].
        now replace (i + 1 + Z.of_nat k) with (i + Z.of_nat (S k)) by lia.
Qed.

Lemma elem_of_controls_pageJump w i entry j page active :
  pageJump j page active ∈ controls_of w i entry <->
  entry <> 0 /\ j = i - 1 /\ page = entry
  /\ active = (entry =? CURRENT_PAGE w).
Proof.
  unfold controls_of.
  destruct (Z.eqb_spec entry 1) as [Hone | Hone],
    (Z.eqb_spec entry 0) as [Hgap | Hgap],
    (Z.eqb_spec entry (TOTAL_PAGES w)) as [Hlast | Hlast];
    rewrite ?elem_of_app, ?elem_of_cons, ?elem_of_nil;
    intuition congruence.
Qed.

Lemma elem_of_controls_pageNext w i entry disabled :
  pageNext disabled ∈ controls_of w i entry <->
  entry = TOTAL_PAGES w
  /\ disabled = (CURRENT_PAGE w =? TOTAL_PAGES w).
Proof.
  unfold controls_of.
  destruct (Z.eqb_spec entry 1) as [Hone | Hone],
    (Z.eqb_spec entry 0) as [Hgap | Hgap],
    (Z.eqb_spec entry (TOTAL_PAGES w)) as [Hlast | Hlast];
    rewrite ?elem_of_app, ?elem_of_cons, ?elem_of_nil;
    intuition congruence.
Qed.

(** When nothing is being processed, the strip built for a current page in
    range begins with the previous-page button and its controls end with
    the next-page button, each disabled exactly at its end of the book; the
    next-page button is the last child, unless the document still had a
    processing indicator, which then follows it as the only child behind
    it.  The strip holds the active button of the current page. *)
Theorem strip_buttons ui_numPaginationItems existingProcessing w :
  5 <= ui_numPaginationItems ->
  page_in_range w ->
  IS_PROCESSING w = false ->
  exists showPages,
    _getPageList (TOTAL_PAGES w) (CURRENT_PAGE w) ui_numPaginationItems
      (IS_PROCESSING w) = Normal showPages
    /\ head (paginationChildren w showPages existingProcessing)
       = Some (button (pagePrev (CURRENT_PAGE w =? 1)))
    /\ (exists front,
          paginationChildren w showPages existingProcessing
          = (button <$> front)
            ++ button (pageNext (CURRENT_PAGE w =? TOTAL_PAGES w))
               :: (if existingProcessing then [processing_indicator] else []))
    /\ last (paginationChildren w showPages existingProcessing)
       = Some (if existingProcessing
               then processing_indicator
               else button (pageNext (CURRENT_PAGE w =? TOTAL_PAGES w)))
    /\ exists i,
         button (pageJump i (CURRENT_PAGE w) true)
         ∈ paginationChildren w showPages existingProcessing.
Proof.
  intros Hitems Hrange Hidle. unfold page_in_range in Hrange.
  destruct (page_list_facts (TOTAL_PAGES w) (CURRENT_PAGE w)
              ui_numPaginationItems (IS_PROCESSING w) Hitems Hrange)
    as (showPages & Hlist & _ & [rest Hfirst] & Hfull & _).
  destruct (Hfull Hidle) as [[front Hlast] Hcurrent].
  assert (Hcontrols :
            exists before,
              paginationList w showPages
              = before ++ [pageNext (CURRENT_PAGE w =? TOTAL_PAGES w)]).
  { rewrite Hlast. unfold paginationList.
    rewrite paginationList_from_app. simpl. unfold controls_of.
    rewrite Z.eqb_refl, app_nil_r, !app_assoc. eauto. }
  destruct Hcontrols as [before Hbefore].
  exists showPages. split; [exact Hlist|]. split; [|split; [|split]].
  - unfold paginationChildren. rewrite Hfirst. reflexivity.
  - exists before. unfold paginationChildren.
    rewrite Hbefore, fmap_app, <- app_assoc. reflexivity.
  - unfold paginationChildren. rewrite Hbefore, fmap_app.
    destruct existingProcessing.
    + apply last_snoc.
    + rewrite app_nil_r. apply last_snoc.
  - apply list_elem_of_lookup in Hcurrent as [k Hk].
    exists (1 + Z.of_nat k - 1). unfold paginationChildren.
    apply elem_of_app. left. apply list_elem_of_fmap_2.
    apply elem_of_paginationList_from.
    exists k, (CURRENT_PAGE w). split; [exact Hk|].
    apply elem_of_controls_pageJump. rewrite Z.eqb_refl.
    repeat split. lia.
Qed.

Lemma strip_buttons_witness :
  exists showPages,
    _getPageList 4 3 9 false = Normal showPages
    /\ head (paginationChildren four_pages showPages true)
       = Some (button (pagePrev false))
    /\ last (paginationChildren four_pages showPages true)
       = Some processing_indicator
    /\ exists front,
         paginationChildren four_pages showPages true
         = (button <$> front)
           ++ [button (pageNext false); processing_indicator].
Proof.
  destruct (strip_buttons 9 true four_pages)
    as (showPages & Hlist & Hhead & Hfront & Hlast & _);
    [lia | unfold page_in_range; simpl; lia | reflexivity |].
  exists showPages. split; [exact Hlist|]. split; [exact Hhead|].
  split; [exact Hlast | exact Hfront].
Defined.

(** While pages are still processed and do not all fit, the strip has no
    next-page button at all, whatever the current page is. *)
Theorem strip_processing_no_next ui_numPaginationItems w :
  5 <= ui_numPaginationItems ->
  page_in_range w ->
  IS_PROCESSING w = true ->
  ui_numPaginationItems < TOTAL_PAGES w ->
  exists showPages,
    _getPageList (TOTAL_PAGES w) (CURRENT_PAGE w) ui_numPaginationItems
      (IS_PROCESSING w) = Normal showPages
    /\ head (paginationList w showPages)
       = Some (pagePrev (CURRENT_PAGE w =? 1))
    /\ forall disabled, pageNext disabled ∉ paginationList w showPages.
Proof.
  intros Hitems Hrange Hbusy Hmany. unfold page_in_range in Hrange.
  destruct (page_list_facts (TOTAL_PAGES w) (CURRENT_PAGE w)
              ui_numPaginationItems (IS_PROCESSING w) Hitems Hrange)
    as (showPages & Hlist & _ & [rest Hfirst] & _ & Hcut).
  exists showPages. split; [exact Hlist|]. split.
  - rewrite Hfirst. reflexivity.
  - intros disabled Hnext.
    apply elem_of_paginationList_from in Hnext as (k & entry & Hk & Hnext).
    apply elem_of_controls_pageNext in Hnext as [-> _].
    apply (Hcut Hbusy Hmany). apply list_elem_of_lookup. eauto.
Qed.

Lemma strip_processing_no_next_witness :
  exists showPages,
    _getPageList 100 98 7 true = Normal showPages
    /\ head (paginationList
               (set_CURRENT_PAGE 98
                  {| CURRENT_PAGE := 1; TOTAL_PAGES := 100;
                     PAGE_BREAKS := []; IS_PROCESSING := true;
                     GOTO_TITLE_CLICKED := false; FILENAME := EmptyString;
                     FILE_CONTENT_CHUNKS := []; effects := [];
                     history := [] |}) showPages)
       = Some (pagePrev false)
    /\ forall disabled,
         pageNext disabled
         ∉ paginationList
             (set_CURRENT_PAGE 98
                {| CURRENT_PAGE := 1; TOTAL_PAGES := 100;
                   PAGE_BREAKS := []; IS_PROCESSING := true;
                   GOTO_TITLE_CLICKED := false; FILENAME := EmptyString;
                   FILE_CONTENT_CHUNKS := []; effects := [];
                   history := [] |}) showPages.
Proof.
  apply (strip_processing_no_next 7
           (set_CURRENT_PAGE 98
              {| CURRENT_PAGE := 1; TOTAL_PAGES := 100;
                 PAGE_BREAKS := []; IS_PROCESSING := true;
                 GOTO_TITLE_CLICKED := false; FILENAME := EmptyString;
                 FILE_CONTENT_CHUNKS := []; effects := [];
                 history := [] |}));
    [lia | unfold page_in_range; simpl; lia | reflexivity | simpl; lia].
Defined.

(** ** Clicking the buttons *)

(** Every page button of the strip stands for a page of the book, it is the
    active one exactly when it stands for the current page, and a click on
    it shows exactly its page. *)
Theorem click_page_button ui_numPaginationItems w showPages i page active :
  5 <= ui_numPaginationItems ->
  page_in_range w ->
  _getPageList (TOTAL_PAGES w) (CURRENT_PAGE w) ui_numPaginationItems
    (IS_PROCESSING w) = Normal showPages ->
  pageJump i page active ∈ paginationList w showPages ->
  1 <= page <= TOTAL_PAGES w
  /\ (active = true <-> page = CURRENT_PAGE w)
  /\ exists w',
       click ui_numPaginationItems (pageJump i page active) w
       = (w', Normal tt)
       /\ CURRENT_PAGE w' = page
       /\ TOTAL_PAGES w' = TOTAL_PAGES w.
Proof.
  intros Hitems Hrange Hlist Hbutton. unfold page_in_range in Hrange.
  destruct (page_list_facts (TOTAL_PAGES w) (CURRENT_PAGE w)
              ui_numPaginationItems (IS_PROCESSING w) Hitems Hrange)
    as (showPages' & Hlist' & Hentries & _).
  rewrite Hlist in Hlist'. injection Hlist' as <-.
  apply elem_of_paginationList_from in Hbutton as (k & entry & Hk & Hbutton).
  apply elem_of_controls_pageJump in Hbutton as (Hpage & _ & -> & ->).
  rewrite Forall_lookup in Hentries. specialize (Hentries _ _ Hk).
  destruct Hentries as [|Hentry]; [contradiction|].
  split; [exact Hentry|]. split; [apply Z.eqb_eq|].
  unfold click. rewrite parseInt_of_number by auto.
  destruct (gotoPage_run ui_numPaginationItems (Num entry) scroll_top w)
    as (es & c & Hrun & Hnormal).
  rewrite (Hnormal Hitems) in Hrun.
  eexists. split; [exact Hrun|]. simpl. split; [lia | reflexivity].
Qed.

Lemma click_page_button_witness :
  1 <= 2 <= TOTAL_PAGES four_pages
  /\ (false = true <-> 2 = CURRENT_PAGE four_pages)
  /\ exists w',
       click 9 (pageJump 1 2 false) four_pages = (w', Normal tt)
       /\ CURRENT_PAGE w' = 2
       /\ TOTAL_PAGES w' = TOTAL_PAGES four_pages.
Proof.
  apply (click_page_button 9 four_pages [1; 2; 3; 4]);
    [lia | unfold page_in_range; simpl; lia | reflexivity |].
  apply list_elem_of_In. simpl. tauto.
Defined.

(** The previous-page and next-page buttons undo each other, except at the
    ends of the book, where the first click is clamped and changes
    nothing. *)
Theorem click_next_prev ui_numPaginationItems w disabled disabled' :
  5 <= ui_numPaginationItems ->
  page_in_range w ->
  (exists w1 w2,
      click ui_numPaginationItems (pageNext disabled) w = (w1, Normal tt)
      /\ click ui_numPaginationItems (pagePrev disabled') w1
         = (w2, Normal tt)
      /\ (CURRENT_PAGE w < TOTAL_PAGES w -> CURRENT_PAGE w2 = CURRENT_PAGE w)
      /\ (CURRENT_PAGE w = TOTAL_PAGES w ->
          CURRENT_PAGE w1 = CURRENT_PAGE w
          /\ CURRENT_PAGE w2 = Z.max 1 (CURRENT_PAGE w - 1)))
  /\ (exists w1 w2,
         click ui_numPaginationItems (pagePrev disabled') w = (w1, Normal tt)
         /\ click ui_numPaginationItems (pageNext disabled) w1
            = (w2, Normal tt)
         /\ (1 < CURRENT_PAGE w -> CURRENT_PAGE w2 = CURRENT_PAGE w)
         /\ (CURRENT_PAGE w = 1 ->
             CURRENT_PAGE w1 = 1
             /\ CURRENT_PAGE w2 = Z.min 2 (TOTAL_PAGES w))).
Proof.
  intros Hitems Hrange. unfold page_in_range in Hrange.
  assert (Hclick : forall page scrollTo v,
             exists v',
               gotoPage ui_numPaginationItems (Num page) scrollTo v
               = (v', Normal tt)
               /\ CURRENT_PAGE v' = Z.max 1 (Z.min page (TOTAL_PAGES v))
               /\ TOTAL_PAGES v' = TOTAL_PAGES v).
  { intros page scrollTo v.
    destruct (gotoPage_run ui_numPaginationItems (Num page) scrollTo v)
      as (es & c & Hrun & Hnormal).
    rewrite (Hnormal Hitems) in Hrun. eauto. }
  split.
  - destruct (Hclick (CURRENT_PAGE w + 1) scroll_top w)
      as (w1 & Hnext & Hpage1 & Htotal1).
    destruct (Hclick (CURRENT_PAGE w1 - 1) scroll_bottom w1)
      as (w2 & Hprev & Hpage2 & Htotal2).
    exists w1, w2. repeat split; auto; lia.
  - destruct (Hclick (CURRENT_PAGE w - 1) scroll_bottom w)
      as (w1 & Hprev & Hpage1 & Htotal1).
    destruct (Hclick (CURRENT_PAGE w1 + 1) scroll_top w1)
      as (w2 & Hnext & Hpage2 & Htotal2).
    exists w1, w2. repeat split; auto; lia.
Qed.

Lemma click_next_prev_witness :
  exists w1 w2,
    click 9 (pageNext false) four_pages = (w1, Normal tt)
    /\ click 9 (pagePrev false) w1 = (w2, Normal tt)
    /\ (CURRENT_PAGE four_pages < TOTAL_PAGES four_pages ->
        CURRENT_PAGE w2 = CURRENT_PAGE four_pages)
    /\ (CURRENT_PAGE four_pages = TOTAL_PAGES four_pages ->
        CURRENT_PAGE w1 = CURRENT_PAGE four_pages
        /\ CURRENT_PAGE w2 = Z.max 1 (CURRENT_PAGE four_pages - 1)).
Proof.
  apply (click_next_prev 9 four_pages false false);
    [lia | unfold page_in_range; simpl; lia].
Defined.

(** * Further properties of the navigation *)

(** ** What is rendered *)

Lemma showCurrentPageContent_run w :
  showCurrentPageContent w
  = (add_effects
       ((if 0 <? maxLines w
         then [content_rendered (startIndex w)
                 (Z.min (endIndex w) (maxLines w))]
         else []) ++ [footnotes_rendered]) w,
     Normal tt).
Proof.
  unfold showCurrentPageContent, try_catch, mbind, M_bind, vars.
  destruct (0 <? maxLines w); cbv -[app startIndex endIndex maxLines Z.min];
    now rewrite <- ?app_assoc.
Qed.

Lemma generatePagination_run ui_numPaginationItems w showPages :
  _getPageList (TOTAL_PAGES w) (CURRENT_PAGE w) ui_numPaginationItems
    (IS_PROCESSING w) = Normal showPages ->
  generatePagination ui_numPaginationItems w
  = (add_effects [pagination_rendered showPages] w, Normal tt).
Proof.
  intros Hlist. unfold generatePagination, mbind, M_bind, vars, complete.
  now rewrite Hlist.
Qed.

(** Going to the page that is already shown changes no variable, and still
    renders the content of the page and the strip again before it
    scrolls. *)
Theorem gotoPage_current_rerenders ui_numPaginationItems scrollTo w :
  5 <= ui_numPaginationItems ->
  page_in_range w ->
  exists showPages,
    _getPageList (TOTAL_PAGES w) (CURRENT_PAGE w) ui_numPaginationItems
      (IS_PROCESSING w) = Normal showPages
    /\ gotoPage ui_numPaginationItems (Num (CURRENT_PAGE w)) scrollTo w
       = (add_effects
            ((if 0 <? maxLines w
              then [content_rendered (startIndex w)
                      (Z.min (endIndex w) (maxLines w))]
              else [])
             ++ [footnotes_rendered; pagination_rendered showPages]
             ++ match scrollTo with
                | scroll_top => [window_scrollTo_top]
                | scroll_bottom => [window_scrollTo_bottom]
                | scroll_other => []
                end
             ++ [GetScrollPositions_called [true; true]]) w,
          Normal tt).
Proof.
  intros Hitems Hrange. unfold page_in_range in Hrange.
  destruct (getPageList_normal (TOTAL_PAGES w) (CURRENT_PAGE w)
              ui_numPaginationItems (IS_PROCESSING w) Hitems)
    as [showPages Hlist].
  exists showPages. split; [exact Hlist|].
  assert (Hsame : set_CURRENT_PAGE (clampPage (Num (CURRENT_PAGE w)) w) w = w).
  { replace (clampPage (Num (CURRENT_PAGE w)) w) with (CURRENT_PAGE w)
      by (simpl; lia).
    apply set_CURRENT_PAGE_same. }
  unfold gotoPage, mbind, M_bind, modify. rewrite Hsame.
  rewrite showCurrentPageContent_run.
  rewrite (generatePagination_run _ _ showPages) by exact Hlist.
  destruct scrollTo; cbv -[app startIndex endIndex maxLines Z.min Z.ltb];
    now rewrite <- ?app_assoc.
Qed.

Lemma gotoPage_current_rerenders_witness :
  exists showPages,
    _getPageList (TOTAL_PAGES four_pages) (CURRENT_PAGE four_pages) 9
      (IS_PROCESSING four_pages) = Normal showPages
    /\ gotoPage 9 (Num (CURRENT_PAGE four_pages)) scroll_top four_pages
       = (add_effects
            ((if 0 <? maxLines four_pages
              then [content_rendered (startIndex four_pages)
                      (Z.min (endIndex four_pages) (maxLines four_pages))]
              else [])
             ++ [footnotes_rendered; pagination_rendered showPages]
             ++ [window_scrollTo_top]
             ++ [GetScrollPositions_called [true; true]]) four_pages,
          Normal tt).
Proof.
  apply (gotoPage_current_rerenders 9 scroll_top four_pages);
    [lia | unfold page_in_range; simpl; lia].
Defined.

(** Going to a title line of the page that is already shown renders
    nothing and cannot throw, whatever the strip is configured to: it marks
    the title, sets the flag of the title click and records the line. *)
Theorem gotoLine_same_page ui_numPaginationItems GET_LINE lineNumber w :
  needToGoPage lineNumber w = CURRENT_PAGE w ->
  gotoLine ui_numPaginationItems GET_LINE lineNumber true w
  = (add_history (FILENAME w, lineNumber)
       (set_GOTO_TITLE_CLICKED true
          (add_effect (chapter_title_active lineNumber) w)),
     Normal 0).
Proof.
  intros Hsame. unfold gotoLine, mbind, M_bind, vars.
  rewrite Hsame, Z.eqb_refl. reflexivity.
Qed.

Lemma gotoLine_same_page_witness :
  gotoLine 4 no_line (Num 41) true four_pages
  = (add_history (FILENAME four_pages, Num 41)
       (set_GOTO_TITLE_CLICKED true
          (add_effect (chapter_title_active (Num 41)) four_pages)),
     Normal 0).
Proof. apply (gotoLine_same_page 4 no_line (Num 41) four_pages). reflexivity. Defined.

(** ** The page of a line, continued *)

(** A later line is never resolved to an earlier page, whatever
    [PAGE_BREAKS] holds. *)
Theorem needToGoPage_monotone w line1 line2 :
  line1 <= line2 ->
  needToGoPage (Num line1) w <= needToGoPage (Num line2) w.
Proof.
  intros Hle.
  destruct (findIndex_cases (fun breakPoint => gt breakPoint (Num line1))
              (PAGE_BREAKS w)) as [Hall1 | (k1 & b1 & Hk1 & Hb1 & Hbefore1)];
    destruct (findIndex_cases (fun breakPoint => gt breakPoint (Num line2))
                (PAGE_BREAKS w)) as [Hall2 | (k2 & b2 & Hk2 & Hb2 & Hbefore2)].
  - rewrite (needToGoPage_none _ _ Hall1), (needToGoPage_none _ _ Hall2). lia.
  - rewrite Forall_lookup in Hall1. specialize (Hall1 _ _ Hk2).
    simpl in Hall1, Hb2. apply Z.ltb_ge in Hall1. apply Z.ltb_lt in Hb2. lia.
  - rewrite (needToGoPage_first _ _ k1 b1 Hk1 Hb1 Hbefore1),
      (needToGoPage_none _ _ Hall2).
    apply lookup_lt_Some in Hk1. lia.
  - rewrite (needToGoPage_first _ _ k1 b1 Hk1 Hb1 Hbefore1),
      (needToGoPage_first _ _ k2 b2 Hk2 Hb2 Hbefore2).
    assert (k1 <= k2)%nat; [|lia].
    destruct (Nat.le_gt_cases k1 k2) as [|Hgt]; [assumption|].
    specialize (Hbefore1 _ _ Hgt Hk2).
    simpl in Hbefore1, Hb2. apply Z.ltb_ge in Hbefore1.
    apply Z.ltb_lt in Hb2. lia.
Qed.

Lemma needToGoPage_monotone_witness :
  needToGoPage (Num 9) four_pages <= needToGoPage (Num 39) four_pages.
Proof. apply (needToGoPage_monotone four_pages 9 39). lia. Defined.

(** The edges of the resolution: without page breaks every line is on page
    1; a line number that is not a number is resolved like a line behind
    the last break; a line before the first break is on page 1. *)
Theorem needToGoPage_edges w lineNumber :
  (PAGE_BREAKS w = [] -> needToGoPage lineNumber w = 1)
  /\ needToGoPage NaN w
     = Z.max 1 (Z.min (Z.of_nat (length (PAGE_BREAKS w))) (TOTAL_PAGES w))
  /\ (forall first rest,
         PAGE_BREAKS w = first :: rest -> gt first lineNumber = true ->
         needToGoPage lineNumber w = 1).
Proof.
  split; [|split].
  - intros Hempty. unfold needToGoPage. rewrite Hempty. simpl. lia.
  - apply needToGoPage_none. apply Forall_forall. reflexivity.
  - intros first rest Hbreaks Hfirst.
    rewrite (needToGoPage_first lineNumber w 0 first);
      [lia | now rewrite Hbreaks | exact Hfirst | intros j y Hj; lia].
Qed.

Lemma needToGoPage_edges_witness :
  needToGoPage NaN four_pages
  = Z.max 1 (Z.min (Z.of_nat (length (PAGE_BREAKS four_pages)))
               (TOTAL_PAGES four_pages)).
Proof. apply (needToGoPage_edges four_pages NaN). Defined.

(** In a book without pages ([TOTAL_PAGES < 1]) the clamp ends in its
    lower bound: every navigation makes page 1 the current page, which is
    then out of range. *)
Theorem navigation_without_pages ui_numPaginationItems GET_LINE w :
  TOTAL_PAGES w < 1 ->
  (forall page scrollTo,
      CURRENT_PAGE (gotoPage ui_numPaginationItems (Num page) scrollTo w).1
      = 1)
  /\ (forall lineNumber isTitle,
         CURRENT_PAGE
           (gotoLine ui_numPaginationItems GET_LINE lineNumber isTitle w).1
         = 1).
Proof.
  intros Hnone. split.
  - intros page scrollTo.
    destruct (gotoPage_run ui_numPaginationItems (Num page) scrollTo w)
      as (es & c & -> & _). simpl. lia.
  - intros lineNumber isTitle.
    destruct (gotoLine_sets_page ui_numPaginationItems GET_LINE
                lineNumber isTitle w) as (w' & c & Hrun & Hpage & _).
    rewrite Hrun. simpl. rewrite Hpage. unfold needToGoPage. lia.
Qed.

Lemma navigation_without_pages_witness :
  CURRENT_PAGE
    (gotoPage 9 (Num 7) scroll_top
       {| CURRENT_PAGE := 0; TOTAL_PAGES := 0; PAGE_BREAKS := [];
          IS_PROCESSING := false; GOTO_TITLE_CLICKED := false;
          FILENAME := EmptyString; FILE_CONTENT_CHUNKS := [];
          effects := []; history := [] |}).1 = 1.
Proof.
  apply (navigation_without_pages 9 no_line). simpl. lia.
Defined.

(** ** Pages and the lines they render *)

(** [gotoLine] changes neither the page breaks nor the content. *)
Lemma gotoLine_frame ui_numPaginationItems GET_LINE lineNumber isTitle w :
  exists w' c,
    gotoLine ui_numPaginationItems GET_LINE lineNumber isTitle w = (w', c)
    /\ CURRENT_PAGE w' = needToGoPage lineNumber w
    /\ PAGE_BREAKS w' = PAGE_BREAKS w
    /\ FILE_CONTENT_CHUNKS w' = FILE_CONTENT_CHUNKS w.
Proof.
  destruct (gotoLine_run ui_numPaginationItems GET_LINE lineNumber isTitle w)
    as (es & c & _ & Hrun).
  simpl in Hrun. rewrite Hrun.
  destruct c as [[]|e];
    [destruct isTitle;
     [|destruct (GET_LINE _ lineNumber) as [line|];
       [destruct (scrollIntoView_throws line)|]]|];
    do 2 eexists; repeat split.
Qed.

(** With the page breaks holding the first line of every page, beginning
    with 0, [gotoLine] to a line of the content leaves the reader on the
    page whose rendered range [startIndex <= j < endIndex] holds that
    line, however the call completes. *)
Theorem gotoLine_shows_line ui_numPaginationItems GET_LINE line isTitle w rest :
  PAGE_BREAKS w = 0 :: rest ->
  TOTAL_PAGES w = Z.of_nat (length (PAGE_BREAKS w)) ->
  0 <= line < maxLines w ->
  exists w' c,
    gotoLine ui_numPaginationItems GET_LINE (Num line) isTitle w = (w', c)
    /\ startIndex w' <= line < endIndex w'.
Proof.
  intros Hbreaks Htotal Hline.
  destruct (gotoLine_frame ui_numPaginationItems GET_LINE (Num line)
              isTitle w) as (w' & c & Hrun & Hpage & Hsame & Hcontent).
  exists w', c. split; [exact Hrun|].
  pose proof (needToGoPage_shows_line line w rest Hbreaks Htotal Hline)
    as Hshown.
  unfold startIndex, endIndex, maxLines in *. simpl in Hshown.
  now rewrite Hpage, Hsame, Hcontent.
Qed.

Lemma gotoLine_shows_line_witness :
  exists w' c,
    gotoLine 9 no_line (Num 3) true
      {| CURRENT_PAGE := 1; TOTAL_PAGES := 2; PAGE_BREAKS := [0; 2];
         IS_PROCESSING := false; GOTO_TITLE_CLICKED := false;
         FILENAME := "book.txt"%string;
         FILE_CONTENT_CHUNKS :=
           ["a"%string; "b"%string; "c"%string; "d"%string];
         effects := []; history := [] |}
    = (w', c)
    /\ startIndex w' <= 3 < endIndex w'.
Proof.
  apply (gotoLine_shows_line 9 no_line 3 true _ [2]);
    [reflexivity | reflexivity | vm_compute; split; [discriminate | reflexivity]].
Defined.

Lemma sorted_lookup_lt (l : list Z) i j x y :
  StronglySorted Z.lt l ->
  l !! i = Some x -> l !! j = Some y -> (i < j)%nat -> x < y.
Proof.
  intros Hsorted. revert i j.
  induction Hsorted as [|a l _ IH Ha]; intros [|i] [|j] Hi Hj Hlt;
    simpl in *; try discriminate; try lia.
  - injection Hi as <-. rewrite Forall_lookup in Ha. eauto.
  - eapply IH; eauto. lia.
Qed.

Lemma index_or_at arr i (k : nat) v :
  i = Z.of_nat k -> arr !! k = Some v -> index_or arr i 0 = v.
Proof.
  intros -> Hk. unfold index_or, index.
  destruct (Z.ltb_spec (Z.of_nat k) 0); [lia|].
  rewrite Nat2Z.id, Hk. destruct (Z.eqb_spec v 0); congruence.
Qed.

(** The chunk range of page [page] when [PAGE_BREAKS] is increasing and
    begins with 0. *)
Lemma page_range w rest page :
  PAGE_BREAKS w = 0 :: rest ->
  StronglySorted Z.lt (PAGE_BREAKS w) ->
  TOTAL_PAGES w = Z.of_nat (length (PAGE_BREAKS w)) ->
  1 <= page <= TOTAL_PAGES w ->
  exists first,
    PAGE_BREAKS w !! Z.to_nat (page - 1) = Some first
    /\ startIndex (set_CURRENT_PAGE page w) = first
    /\ (page < TOTAL_PAGES w ->
        exists next,
          PAGE_BREAKS w !! Z.to_nat page = Some next
          /\ first < next
          /\ endIndex (set_CURRENT_PAGE page w) = next)
    /\ (page = TOTAL_PAGES w ->
        endIndex (set_CURRENT_PAGE page w) = maxLines w).
Proof.
  intros Hbreaks Hsorted Htotal Hpage.
  destruct (lookup_lt_is_Some_2 (PAGE_BREAKS w) (Z.to_nat (page - 1)))
    as [first Hfirst]; [lia|].
  exists first. split; [exact Hfirst|]. split; [|split].
  - unfold startIndex. simpl.
    apply (index_or_at _ _ (Z.to_nat (page - 1))); [lia | exact Hfirst].
  - intros Hmore.
    destruct (lookup_lt_is_Some_2 (PAGE_BREAKS w) (Z.to_nat page))
      as [next Hnext]; [lia|].
    assert (Hlt : first < next)
      by (eapply sorted_lookup_lt; eauto; lia).
    assert (Hzero : 0 <= first).
    { destruct (Z.to_nat (page - 1)) as [|k] eqn:Hk.
      - rewrite Hbreaks in Hfirst. simpl in Hfirst. injection Hfirst. lia.
      - assert (0 < first); [|lia].
        eapply (sorted_lookup_lt _ 0%nat (S k)); eauto; [|lia].
        now rewrite Hbreaks. }
    exists next. split; [exact Hnext|]. split; [exact Hlt|].
    unfold endIndex. simpl.
    apply (index_or_found _ _ (Z.to_nat page)); [lia | exact Hnext | lia].
  - intros Hlast. unfold endIndex. simpl.
    change (maxLines (set_CURRENT_PAGE page w)) with (maxLines w).
    apply index_or_beyond. lia.
Qed.

(** With increasing page breaks that begin with 0, the pages tile the
    content: page 1 starts at chunk 0, every page but the last is not
    empty and ends where the next page starts, and the last page ends with
    the content. *)
Theorem pages_tile_content w rest :
  PAGE_BREAKS w = 0 :: rest ->
  StronglySorted Z.lt (PAGE_BREAKS w) ->
  TOTAL_PAGES w = Z.of_nat (length (PAGE_BREAKS w)) ->
  startIndex (set_CURRENT_PAGE 1 w) = 0
  /\ endIndex (set_CURRENT_PAGE (TOTAL_PAGES w) w) = maxLines w
  /\ forall page,
       1 <= page < TOTAL_PAGES w ->
       startIndex (set_CURRENT_PAGE page w)
       < endIndex (set_CURRENT_PAGE page w)
       /\ endIndex (set_CURRENT_PAGE page w)
          = startIndex (set_CURRENT_PAGE (page + 1) w).
Proof.
  intros Hbreaks Hsorted Htotal.
  assert (Hpages : 1 <= TOTAL_PAGES w)
    by (rewrite Htotal, Hbreaks; simpl; lia).
  split; [|split].
  - destruct (page_range w rest 1 Hbreaks Hsorted Htotal)
      as (first & Hfirst & Hstart & _); [lia|].
    rewrite Hbreaks in Hfirst. simpl in Hfirst. congruence.
  - destruct (page_range w rest (TOTAL_PAGES w) Hbreaks Hsorted Htotal)
      as (_ & _ & _ & _ & Hend); [lia|]. now apply Hend.
  - intros page Hpage.
    destruct (page_range w rest page Hbreaks Hsorted Htotal)
      as (first & Hfirst & Hstart & Hend & _); [lia|].
    destruct Hend as (next & Hnext & Hlt & Hend); [lia|].
    destruct (page_range w rest (page + 1) Hbreaks Hsorted Htotal)
      as (first' & Hfirst' & Hstart' & _); [lia|].
    replace (page + 1 - 1) with page in Hfirst' by lia.
    rewrite Hstart, Hend, Hstart'. split; [exact Hlt | congruence].
Qed.

Lemma pages_tile_content_witness :
  startIndex (set_CURRENT_PAGE 1
                {| CURRENT_PAGE := 1; TOTAL_PAGES := 2; PAGE_BREAKS := [0; 2];
                   IS_PROCESSING := false; GOTO_TITLE_CLICKED := false;
                   FILENAME := EmptyString; FILE_CONTENT_CHUNKS := [];
                   effects := []; history := [] |}) = 0.
Proof.
  apply (pages_tile_content _ [2]);
    [reflexivity | repeat constructor | reflexivity].
Defined.

(** With increasing page breaks that begin with 0, the resolution of
    [gotoLine] inverts the rendering: a line inside the rendered range of
    a page is resolved to that very page. *)
Theorem needToGoPage_of_shown_line w rest page line :
  PAGE_BREAKS w = 0 :: rest ->
  StronglySorted Z.lt (PAGE_BREAKS w) ->
  TOTAL_PAGES w = Z.of_nat (length (PAGE_BREAKS w)) ->
  1 <= page <= TOTAL_PAGES w ->
  startIndex (set_CURRENT_PAGE page w) <= line
    < endIndex (set_CURRENT_PAGE page w) ->
  needToGoPage (Num line) w = page.
Proof.
  intros Hbreaks Hsorted Htotal Hpage Hline.
  destruct (page_range w rest page Hbreaks Hsorted Htotal Hpage)
    as (first & Hfirst & Hstart & Hend & Hlast).
  rewrite Hstart in Hline.
  assert (Hbefore : forall j earlier,
             (j < Z.to_nat page)%nat -> PAGE_BREAKS w !! j = Some earlier ->
             gt earlier (Num line) = false).
  { intros j earlier Hj Hearlier. simpl. apply Z.ltb_ge.
    destruct (Nat.eq_dec j (Z.to_nat (page - 1))) as [-> | Hne].
    - rewrite Hfirst in Hearlier. injection Hearlier as <-. lia.
    - assert (earlier < first); [|lia].
      eapply (sorted_lookup_lt _ j (Z.to_nat (page - 1))); eauto. lia. }
  destruct (Z.eq_dec page (TOTAL_PAGES w)) as [Hat_end | Hinside].
  - rewrite needToGoPage_none; [lia|].
    apply Forall_lookup. intros j earlier Hearlier.
    apply (Hbefore j earlier); [|exact Hearlier].
    apply lookup_lt_Some in Hearlier. lia.
  - destruct Hend as (next & Hnext & _ & Hend); [lia|].
    rewrite Hend in Hline.
    rewrite (needToGoPage_first _ _ (Z.to_nat page) next Hnext);
      [lia | apply gt_Num; lia | exact Hbefore].
Qed.

Lemma needToGoPage_of_shown_line_witness :
  needToGoPage (Num 1)
    {| CURRENT_PAGE := 2; TOTAL_PAGES := 2; PAGE_BREAKS := [0; 2];
       IS_PROCESSING := false; GOTO_TITLE_CLICKED := false;
       FILENAME := EmptyString;
       FILE_CONTENT_CHUNKS := ["a"%string; "b"%string; "c"%string];
       effects := []; history := [] |} = 1.
Proof.
  apply (needToGoPage_of_shown_line _ [2] 1 1);
    [reflexivity | repeat constructor | reflexivity | simpl; lia
    | vm_compute; split; discriminate || reflexivity].
Defined.

(** ** The jump input *)

(** A key press in a jump input always completes: any key but Enter
    changes nothing; Enter on the text of a number shows that page,
    clamped into the book; Enter on an empty input keeps the current
    page. *)
Theorem keypress_jump ui_numPaginationItems e w :
  5 <= ui_numPaginationItems ->
  exists w',
    keypress ui_numPaginationItems e w = (w', Normal tt)
    /\ TOTAL_PAGES w' = TOTAL_PAGES w
    /\ (key e <> "Enter"%string -> w' = w)
    /\ (key e = "Enter"%string ->
        (forall page,
            target_value e = Text.of_number page ->
            CURRENT_PAGE w' = Z.max 1 (Z.min page (TOTAL_PAGES w)))
        /\ (target_value e = EmptyString ->
            CURRENT_PAGE w' = CURRENT_PAGE w)).
Proof.
  intros Hitems. unfold keypress.
  destruct (gotoPageInputField_run ui_numPaginationItems
              (fun s => Text.parseInt s 0) e scroll_top w)
    as (es & c & Hrun & Hnormal).
  rewrite (Hnormal Hitems) in Hrun. rewrite Hrun.
  destruct (String.eqb_spec (key e) "Enter") as [Henter | Hother].
  - eexists. split; [reflexivity|]. split; [reflexivity|].
    split; [intros Hne; contradiction|]. intros _. split.
    + intros page Hvalue. simpl. rewrite Hvalue, parseInt_of_number by auto.
      reflexivity.
    + intros Hvalue. simpl. rewrite Hvalue. reflexivity.
  - exists w. repeat split; auto; intros Henter; contradiction.
Qed.

Lemma keypress_jump_witness :
  exists w',
    keypress 9 {| key := "Enter"; target_value := "2" |} four_pages
    = (w', Normal tt)
    /\ TOTAL_PAGES w' = TOTAL_PAGES four_pages.
Proof.
  destruct (keypress_jump 9 {| key := "Enter"; target_value := "2" |}
              four_pages) as (w' & Hrun & Htotal & _); [lia|].
  exists w'. split; assumption.
Defined.
